(** * Stock balance monitor: state-diff and change-classification engine

    A shallow embedding of [monitor_combined.py] and the properties of
    its snapshot store, comparators, reconciliation calculator and
    run loop.

    Conventions of the embedding.
    - Text is a [string] of 8-bit characters; [strip], [lower] and
      [isdigit] act on the ASCII range, where they agree with Python.
    - A Python [float] is an IEEE-754 binary64 value, [spec_float] with
      precision 53 and maximal exponent 1024, rounded to nearest even.
    - An exception is a value of [exn]; a computation that may raise
      returns a [result]; a computation that also writes state files
      is a function of the [Store] (type [M]).
    - The four state files are the fields of [Store]; a missing or
      unreadable file is [None].  [writable] tells for each file
      whether writing it succeeds during the run; a failed write leaves
      the file as it was.
    - The text of the alert message is not built: the formatting
      functions return [tt] where the source returns a string, and
      raise where the source raises. *)

From Stdlib Require Import ZArith List Bool Ascii String Lia Arith.
From Stdlib Require Import Floats.SpecFloat.
Import ListNotations.
Open Scope string_scope.
Open Scope list_scope.

Set Implicit Arguments.

(** ** Exceptions and results *)

Inductive exn : Type :=
| TypeError
| IndexError
| ValueError
| OverflowError
| APIError (msg : string).

Inductive result (A : Type) : Type :=
| Ok (a : A)
| Raise (e : exn).

Arguments Ok {A} a.
Arguments Raise {A} e.

Definition rbind {A B} (r : result A) (k : A -> result B) : result B :=
  match r with
  | Ok a => k a
  | Raise e => Raise e
  end.

Notation "'let?' x ':=' r 'in' k" := (rbind r (fun x => k))
  (at level 10, x pattern, r at level 100, k at level 200).

(** [for i in range(n)] with an accumulator, in the [result] monad. *)
Fixpoint for_range_from {A} (start n : nat) (body : nat -> A -> result A)
  (acc : A) : result A :=
  match n with
  | O => Ok acc
  | S n' => let? acc' := body start acc in
            for_range_from (S start) n' body acc'
  end.

Definition for_range {A} (n : nat) (body : nat -> A -> result A) (acc : A)
  : result A :=
  for_range_from 0 n body acc.

(** ** Text *)

Module Text.

(** The ASCII characters that [str.strip()] removes. *)
Definition is_space (c : ascii) : bool :=
  let n := nat_of_ascii c in
  ((9 <=? n)%nat && (n <=? 13)%nat) || ((28 <=? n)%nat && (n <=? 32)%nat).

Definition is_digit (c : ascii) : bool :=
  let n := nat_of_ascii c in
  (48 <=? n)%nat && (n <=? 57)%nat.

Fixpoint lstrip_chars (l : list ascii) : list ascii :=
  match l with
  | c :: l' => if is_space c then lstrip_chars l' else l
  | [] => []
  end.

Definition strip_chars (l : list ascii) : list ascii :=
  rev (lstrip_chars (rev (lstrip_chars l))).

(** [s.strip()] *)
Definition strip (s : string) : string :=
  string_of_list_ascii (strip_chars (list_ascii_of_string s)).

Definition lower_char (c : ascii) : ascii :=
  let n := nat_of_ascii c in
  if (65 <=? n)%nat && (n <=? 90)%nat then ascii_of_nat (n + 32) else c.

(** [s.lower()] *)
Fixpoint lower (s : string) : string :=
  match s with
  | EmptyString => EmptyString
  | String c s' => String (lower_char c) (lower s')
  end.

(** [s.replace(',', '')] *)
Fixpoint remove_commas (s : string) : string :=
  match s with
  | EmptyString => EmptyString
  | String c s' =>
      if Ascii.eqb c "," then remove_commas s'
      else String c (remove_commas s')
  end.

(** [s.replace('.', '', 1)] *)
Fixpoint remove_first_dot (s : string) : string :=
  match s with
  | EmptyString => EmptyString
  | String c s' =>
      if Ascii.eqb c "." then s' else String c (remove_first_dot s')
  end.

Fixpoint all_digits (s : string) : bool :=
  match s with
  | EmptyString => true
  | String c s' => is_digit c && all_digits s'
  end.

(** [s.isdigit()]: at least one character, all of them digits. *)
Definition isdigit (s : string) : bool :=
  match s with
  | EmptyString => false
  | _ => all_digits s
  end.

Fixpoint has_comma (s : string) : bool :=
  match s with
  | EmptyString => false
  | String c s' => Ascii.eqb c "," || has_comma s'
  end.

(** The number a string of decimal digits denotes. *)
Fixpoint digits_value_from (acc : Z) (s : string) : Z :=
  match s with
  | EmptyString => acc
  | String c s' =>
      digits_value_from (10 * acc + (Z.of_nat (nat_of_ascii c) - 48)) s'
  end.

Definition digits_value (s : string) : Z := digits_value_from 0 s.

(** [needle in s] *)
Fixpoint contains (needle s : string) : bool :=
  prefix needle s ||
  match s with
  | EmptyString => false
  | String _ s' => contains needle s'
  end.

End Text.

(** ** Binary64 *)

Module F64.

Definition prec : Z := 53.
Definition emax : Z := 1024.

Definition sub : spec_float -> spec_float -> spec_float := SFsub prec emax.
Definition abs : spec_float -> spec_float := SFabs.
Definition leb : spec_float -> spec_float -> bool := SFleb.
Definition ltb : spec_float -> spec_float -> bool := SFltb.
Definition eqb : spec_float -> spec_float -> bool := SFeqb.

(** The float nearest to an integer: [float(n)] before the overflow
    check. *)
Definition of_Z (n : Z) : spec_float := binary_normalize prec emax n 0 false.

Definition zero : spec_float := S754_zero false.

(** The literal [0.01]. *)
Definition c_0_01 : spec_float := S754_finite false 5764607523034235 (-59).

Definition is_zero (f : spec_float) : bool :=
  match f with
  | S754_zero _ => true
  | _ => false
  end.

(** [int(f)]: truncation toward zero; raises on infinities and NaN. *)
Definition to_int (f : spec_float) : result Z :=
  match f with
  | S754_zero _ => Ok 0%Z
  | S754_finite s m e =>
      let mag := match e with
                 | Zneg p => Z.shiftr (Zpos m) (Zpos p)
                 | _ => Z.shiftl (Zpos m) e
                 end in
      Ok (if s then Z.opp mag else mag)
  | S754_infinity _ => Raise OverflowError
  | S754_nan => Raise ValueError
  end.

(** [float(n)] for a Python int: raises when [n] is out of range. *)
Definition of_int (n : Z) : result spec_float :=
  match of_Z n with
  | S754_infinity _ => Raise OverflowError
  | f => Ok f
  end.

(** Exact comparison of a float with an integer, as Python's [==]
    between [float] and [int]. *)
Definition eqb_int (f : spec_float) (n : Z) : bool :=
  match f with
  | S754_zero _ => Z.eqb n 0
  | S754_finite s m e =>
      let sgn (z : Z) := if s then Z.opp z else z in
      match e with
      | Zneg p =>
          Z.eqb (Z.land (Zpos m) (Z.ones (Zpos p))) 0
          && Z.eqb n (sgn (Z.shiftr (Zpos m) (Zpos p)))
      | _ => Z.eqb n (sgn (Z.shiftl (Zpos m) e))
      end
  | _ => false
  end.

End F64.

(** ** Python values held by a state file

    [pickle.load] can return any object.  The embedding covers [None],
    integers, floats, text, and lists whose elements are lists of text or
    one of the former: every shape the monitor itself writes, and the
    malformed shapes its validation and error handlers are written for.
    Text is a sequence too ([len], indexing and slicing work on it). *)

Inductive Atom : Type :=
| ANone
| AInt (z : Z)
| AFloat (f : spec_float)
| AStr (s : string).

Inductive Row : Type :=
| RAtom (a : Atom)
| RList (cells : list string).

Inductive PyVal : Type :=
| PAtom (a : Atom)
| PList (rows : list Row).

Definition PNone : PyVal := PAtom ANone.

(** A table as delivered by the sheet API: rows of text cells. *)
Definition Table : Type := list (list string).

(** The Python object a fetched table is. *)
Definition table_val (t : Table) : PyVal := PList (map RList t).

Module Py.

(** Truth value of an object ([not x] is its negation). *)
Definition atom_truthy (a : Atom) : bool :=
  match a with
  | ANone => false
  | AInt z => negb (Z.eqb z 0)
  | AFloat f => negb (F64.is_zero f)
  | AStr s => negb (String.eqb s "")
  end.

Definition truthy (v : PyVal) : bool :=
  match v with
  | PAtom a => atom_truthy a
  | PList rows => match rows with [] => false | _ => true end
  end.

Definition is_none (v : PyVal) : bool :=
  match v with
  | PAtom ANone => true
  | _ => false
  end.

(** [isinstance(v, (int, float))] *)
Definition is_int_or_float (v : PyVal) : bool :=
  match v with
  | PAtom (AInt _) | PAtom (AFloat _) => true
  | _ => false
  end.

Definition atom_len (a : Atom) : result nat :=
  match a with
  | AStr s => Ok (String.length s)
  | _ => Raise TypeError
  end.

(** [len(v)] *)
Definition len (v : PyVal) : result nat :=
  match v with
  | PAtom a => atom_len a
  | PList rows => Ok (List.length rows)
  end.

Definition row_len (r : Row) : result nat :=
  match r with
  | RAtom a => atom_len a
  | RList cells => Ok (List.length cells)
  end.

(** [s[i]] on text: the one-character text at [i]. *)
Definition str_getitem (s : string) (i : nat) : result string :=
  match String.get i s with
  | Some c => Ok (String c EmptyString)
  | None => Raise IndexError
  end.

Definition atom_getitem (a : Atom) (i : nat) : result string :=
  match a with
  | AStr s => str_getitem s i
  | _ => Raise TypeError
  end.

(** [v[i]] for [i >= 0] *)
Definition getitem (v : PyVal) (i : nat) : result Row :=
  match v with
  | PAtom a => let? c := atom_getitem a i in Ok (RAtom (AStr c))
  | PList rows =>
      match nth_error rows i with
      | Some r => Ok r
      | None => Raise IndexError
      end
  end.

Definition row_getitem (r : Row) (i : nat) : result string :=
  match r with
  | RAtom a => atom_getitem a i
  | RList cells =>
      match nth_error cells i with
      | Some c => Ok c
      | None => Raise IndexError
      end
  end.

(** [l[i]] on a list of the fetched table. *)
Definition list_getitem {A} (l : list A) (i : nat) : result A :=
  match nth_error l i with
  | Some x => Ok x
  | None => Raise IndexError
  end.

Definition str_drop (n : nat) (s : string) : string :=
  String.substring n (String.length s - n) s.

Definition str_take (n : nat) (s : string) : string :=
  String.substring 0 n s.

(** [r[n:]] *)
Definition row_slice_from (n : nat) (r : Row) : result Row :=
  match r with
  | RList cells => Ok (RList (skipn n cells))
  | RAtom (AStr s) => Ok (RAtom (AStr (str_drop n s)))
  | RAtom _ => Raise TypeError
  end.

(** [r[:n]] *)
Definition row_slice_to (n : nat) (r : Row) : result Row :=
  match r with
  | RList cells => Ok (RList (firstn n cells))
  | RAtom (AStr s) => Ok (RAtom (AStr (str_take n s)))
  | RAtom _ => Raise TypeError
  end.

(** [r + l] for a list [l] *)
Definition row_add_list (r : Row) (l : list string) : result Row :=
  match r with
  | RList cells => Ok (RList (cells ++ l))
  | RAtom _ => Raise TypeError
  end.

(** [a != b] *)
Definition atom_ne (a b : Atom) : bool :=
  match a, b with
  | ANone, ANone => false
  | AInt x, AInt y => negb (Z.eqb x y)
  | AFloat f, AFloat g => negb (F64.eqb f g)
  | AInt x, AFloat f | AFloat f, AInt x => negb (F64.eqb_int f x)
  | AStr s, AStr t => negb (String.eqb s t)
  | _, _ => true
  end.

(** [a - b] *)
Definition atom_sub (a b : Atom) : result Atom :=
  match a, b with
  | AInt x, AInt y => Ok (AInt (x - y))
  | AFloat f, AFloat g => Ok (AFloat (F64.sub f g))
  | AInt x, AFloat g => let? f := F64.of_int x in Ok (AFloat (F64.sub f g))
  | AFloat f, AInt y => let? g := F64.of_int y in Ok (AFloat (F64.sub f g))
  | _, _ => Raise TypeError
  end.

(** [abs(a)] *)
Definition atom_abs (a : Atom) : result Atom :=
  match a with
  | AInt x => Ok (AInt (Z.abs x))
  | AFloat f => Ok (AFloat (F64.abs f))
  | _ => Raise TypeError
  end.

(** [v != a] and [v - a] for a loaded value [v]; a list differs from
    every number and cannot be subtracted from. *)
Definition ne (v : PyVal) (a : Atom) : bool :=
  match v with
  | PAtom p => atom_ne p a
  | PList _ => true
  end.

Definition sub (v : PyVal) (a : Atom) : result Atom :=
  match v with
  | PAtom p => atom_sub p a
  | PList _ => Raise TypeError
  end.

(** [a >= 0.01]; an int is compared with the float exactly, and no
    integer lies strictly between 0 and the float 0.01. *)
Definition atom_ge_0_01 (a : Atom) : result bool :=
  match a with
  | AInt x => Ok (Z.leb 1 x)
  | AFloat f => Ok (F64.leb F64.c_0_01 f)
  | _ => Raise TypeError
  end.

End Py.

(** ** Snapshot store *)

Inductive StateFile : Type :=
| STOCK_STATE_FILE
| PARTS_STATE_FILE
| WHOLE_CHICKEN_DIFF_STATE_FILE
| GIZZARD_DIFF_STATE_FILE.

(** File names below the data directory, which is taken not to contain
    the marker ['diff_state'] itself. *)
Definition file_name (f : StateFile) : string :=
  match f with
  | STOCK_STATE_FILE => "previous_stock_state.pickle"
  | PARTS_STATE_FILE => "previous_parts_state.pickle"
  | WHOLE_CHICKEN_DIFF_STATE_FILE => "previous_whole_chicken_diff_state.pickle"
  | GIZZARD_DIFF_STATE_FILE => "previous_gizzard_diff_state.pickle"
  end.

(** ['diff_state' in state_file] *)
Definition is_diff_state (f : StateFile) : bool :=
  Text.contains "diff_state" (file_name f).

Record Store : Type := mkStore {
  stock_state : option PyVal;
  parts_state : option PyVal;
  chicken_diff_state : option PyVal;
  gizzard_diff_state : option PyVal;
  writable : StateFile -> bool
}.

Definition read_file (f : StateFile) (st : Store) : option PyVal :=
  match f with
  | STOCK_STATE_FILE => stock_state st
  | PARTS_STATE_FILE => parts_state st
  | WHOLE_CHICKEN_DIFF_STATE_FILE => chicken_diff_state st
  | GIZZARD_DIFF_STATE_FILE => gizzard_diff_state st
  end.

Definition write_file (f : StateFile) (v : PyVal) (st : Store) : Store :=
  match f with
  | STOCK_STATE_FILE =>
      mkStore (Some v) (parts_state st) (chicken_diff_state st)
        (gizzard_diff_state st) (writable st)
  | PARTS_STATE_FILE =>
      mkStore (stock_state st) (Some v) (chicken_diff_state st)
        (gizzard_diff_state st) (writable st)
  | WHOLE_CHICKEN_DIFF_STATE_FILE =>
      mkStore (stock_state st) (parts_state st) (Some v)
        (gizzard_diff_state st) (writable st)
  | GIZZARD_DIFF_STATE_FILE =>
      mkStore (stock_state st) (parts_state st) (chicken_diff_state st)
        (Some v) (writable st)
  end.

(** Computations that may raise and may write state files. *)
Definition M (A : Type) : Type := Store -> result A * Store.

Definition ret {A} (a : A) : M A := fun st => (Ok a, st).

Definition raise {A} (e : exn) : M A := fun st => (Raise e, st).

Definition bind {A B} (m : M A) (k : A -> M B) : M B :=
  fun st =>
    match m st with
    | (Ok a, st') => k a st'
    | (Raise e, st') => (Raise e, st')
    end.

Definition lift {A} (r : result A) : M A := fun st => (r, st).

(** [try: m  except Exception as e: h e] *)
Definition try_except {A} (m : M A) (h : exn -> M A) : M A :=
  fun st =>
    match m st with
    | (Ok a, st') => (Ok a, st')
    | (Raise e, st') => h e st'
    end.

Notation "x <- m ;; k" := (bind m (fun x => k))
  (at level 61, m at next level, right associativity).
Notation "m ;;; k" := (bind m (fun _ => k))
  (at level 61, right associativity).

(** [not data or len(data) < min_rows], left to right. *)
Definition too_few_rows (data : PyVal) : result bool :=
  if negb (Py.truthy data) then Ok true
  else let? n := Py.len data in Ok (n <? 2)%nat.

Definition load_previous_state (state_file : StateFile) (st : Store) : PyVal :=
  match read_file state_file st with
  | Some data =>
      let checked : result PyVal :=
        if is_diff_state state_file then
          if negb (Py.is_int_or_float data) && negb (Py.is_none data)
          then Ok PNone
          else Ok data
        else
          let? bad := too_few_rows data in
          if bad then Ok PNone else Ok data in
      match checked with
      | Ok v => v
      | Raise _ => PNone
      end
  | None => PNone
  end.

Definition save_current_state (state : PyVal) (state_file : StateFile) : M unit :=
  skip <- (if is_diff_state state_file then
             ret (negb (Py.is_int_or_float state) && negb (Py.is_none state))
           else lift (too_few_rows state)) ;;
  if (skip : bool) then ret tt
  else
    (* try: makedirs, open, pickle.dump  except Exception: raise APIError *)
    fun st =>
      if writable st state_file
      then (Ok tt, write_file state_file state st)
      else (Raise (APIError "Failed to save state file"), st).

(** ** Tabular comparators *)

(** A reportable difference: label, old value, new value. *)
Definition Change : Type := (string * PyVal * PyVal)%type.

(** A text cell as a Python object. *)
Definition cell (s : string) : PyVal := PAtom (AStr s).

(** [str(p).strip() != str(c).strip()] on two text cells. *)
Definition cell_differs (p c : string) : bool :=
  negb (String.eqb (Text.strip p) (Text.strip c)).

(** One round of the comparison loops: the cells at position [i] are
    compared as trimmed text, and a difference is appended under the
    header of that position. *)
Definition compare_position (headers : list string) (prev_row : Row)
  (curr_row : list string) (i : nat) (changes : list Change)
  : result (list Change) :=
  let? p := Py.row_getitem prev_row i in
  let? c := Py.list_getitem curr_row i in
  if cell_differs p c then
    let? h := Py.list_getitem headers i in
    Ok (changes ++ [(h, cell p, cell c)])
  else Ok changes.

(** The comparison loop of [detect_stock_changes]. *)
Definition stock_compare_loop (headers : list string) (prev_row : Row)
  (curr_row : list string) (n : nat) : result (list Change) :=
  for_range n (compare_position headers prev_row curr_row) [].

Definition detect_stock_changes (previous_data : PyVal) (current_data : Table)
  : M (list Change) :=
  if negb (Py.truthy previous_data) then ret []
  else
    try_except
      (prev_row <- lift (Py.getitem previous_data 1) ;;
       curr_row <- lift (Py.list_getitem current_data 1) ;;
       headers <- lift (Py.list_getitem current_data 0) ;;
       n_prev <- lift (Py.row_len prev_row) ;;
       if negb (n_prev =? List.length curr_row)%nat
          || negb (List.length headers =? List.length curr_row)%nat
       then
         save_current_state (table_val current_data) STOCK_STATE_FILE ;;;
         ret []
       else lift (stock_compare_loop headers prev_row curr_row n_prev))
      (fun _ => raise (APIError "Failed to compare stock states")).

(** [t[i][1:]] when the table has row [i] and that row has more than one
    cell, otherwise the empty list. *)
Definition table_row_tail (t : Table) (i : nat) : list string :=
  if (i <? List.length t)%nat then
    match nth_error t i with
    | Some r => if (1 <? List.length r)%nat then skipn 1 r else []
    | None => []
    end
  else [].

(** The same on the loaded previous state, whose shape is not known. *)
Definition previous_row_tail (previous_data : PyVal) : result Row :=
  let? n := Py.len previous_data in
  if (1 <? n)%nat then
    let? r := Py.getitem previous_data 1 in
    let? m := Py.row_len r in
    if (1 <? m)%nat then Py.row_slice_from 1 r else Ok (RList [])
  else Ok (RList []).

(** The comparison loop of [detect_parts_changes]. *)
Definition parts_compare_loop (part_headers : list string) (prev_values : Row)
  (curr_values : list string) : result (list Change) :=
  for_range (List.length part_headers)
    (fun i changes =>
       let? n_prev := Py.row_len prev_values in
       if (n_prev <=? i)%nat || (List.length curr_values <=? i)%nat then Ok changes
       else compare_position part_headers prev_values curr_values i changes)
    [].

(** The body of the [try] block of [detect_parts_changes]. *)
Definition parts_compare (previous_data : PyVal) (current_data : Table)
  : result (list Change) :=
  let part_headers := table_row_tail current_data 0 in
  let? prev_values := previous_row_tail previous_data in
  let curr_values := table_row_tail current_data 1 in
  (* length mismatch between headers and current values *)
  let? (part_headers, curr_values, prev_values) :=
    if negb (List.length part_headers =? List.length curr_values)%nat then
      let compare_length := Nat.min (List.length part_headers) (List.length curr_values) in
      let? n_prev := Py.row_len prev_values in
      let? prev_values' :=
        if (compare_length <? n_prev)%nat
        then Py.row_slice_to compare_length prev_values
        else Ok prev_values in
      Ok (firstn compare_length part_headers,
          firstn compare_length curr_values,
          prev_values')
    else Ok (part_headers, curr_values, prev_values) in
  (* pad or trim the previous values *)
  let? n_prev := Py.row_len prev_values in
  let? prev_values :=
    if (n_prev <? List.length curr_values)%nat then
      Py.row_add_list prev_values (repeat "" (List.length curr_values - n_prev))
    else if (List.length curr_values <? n_prev)%nat then
      Py.row_slice_to (List.length curr_values) prev_values
    else Ok prev_values in
  parts_compare_loop part_headers prev_values curr_values.

Definition detect_parts_changes (previous_data : PyVal) (current_data : Table)
  : M (list Change) :=
  if negb (Py.truthy previous_data) then ret []
  else
    try_except
      (lift (parts_compare previous_data current_data))
      (fun _ =>
         save_current_state (table_val current_data) PARTS_STATE_FILE ;;;
         ret []).

(** ** Scalar difference comparators *)

Definition detect_chicken_difference_changes (previous_chicken_diff : PyVal)
  (current_chicken_diff : Atom) : result (list Change) :=
  if Py.is_none previous_chicken_diff then Ok []
  else
    match
      (let changes : list Change := [] in
       let changes :=
         if negb (Py.is_none (PAtom current_chicken_diff))
            && Py.ne previous_chicken_diff current_chicken_diff
         then changes ++ [("Whole Chicken Balance Difference",
                           previous_chicken_diff, PAtom current_chicken_diff)]
         else changes in
       Ok changes)
    with
    | Ok changes => Ok changes
    | Raise _ => Raise (APIError "Failed to compare whole chicken difference states")
    end.

Definition detect_gizzard_difference_changes (previous_gizzard_diff : PyVal)
  (current_gizzard_diff : Atom) : result (list Change) :=
  if Py.is_none previous_gizzard_diff then Ok []
  else
    match
      (let changes : list Change := [] in
       let? changes :=
         if negb (Py.is_none (PAtom current_gizzard_diff)) then
           let? d := Py.sub previous_gizzard_diff current_gizzard_diff in
           let? a := Py.atom_abs d in
           let? ge := Py.atom_ge_0_01 a in
           if (ge : bool)
           then Ok (changes ++ [("Gizzard Balance Difference",
                                 previous_gizzard_diff, PAtom current_gizzard_diff)])
           else Ok changes
         else Ok changes in
       Ok changes)
    with
    | Ok changes => Ok changes
    | Raise _ => Raise (APIError "Failed to compare gizzard difference states")
    end.

(** ** Reconciliation calculator *)

(** [try: r  except (ValueError, TypeError): h] *)
Definition except_value_type {A} (r : result A) (h : result A) : result A :=
  match r with
  | Raise ValueError | Raise TypeError => h
  | _ => r
  end.

(** [try: r  except Exception: return d] *)
Definition except_all {A} (r : result A) (d : A) : A :=
  match r with
  | Ok a => a
  | Raise _ => d
  end.

(** [l.index(x)] on a list of text. *)
Fixpoint list_index_from (x : string) (l : list string) (i : nat) : result nat :=
  match l with
  | [] => Raise ValueError
  | y :: l' => if String.eqb y x then Ok i else list_index_from x l' (S i)
  end.

Definition list_index (x : string) (l : list string) : result nat :=
  list_index_from x l 0.

(** [sorted(rows, key=key, reverse=True)]: descending by key, rows with
    equal keys in their original order. *)
Fixpoint insert_desc {A} (key : A -> string) (x : A) (l : list A) : list A :=
  match l with
  | [] => [x]
  | y :: l' =>
      if String.ltb (key x) (key y) then y :: insert_desc key x l'
      else x :: y :: l'
  end.

Definition sorted_desc {A} (key : A -> string) (l : list A) : list A :=
  fold_right (insert_desc key) [] l.

(** The first row of the loop [for row in data_rows: if ...: break]. *)
Fixpoint find_first {A} (p : A -> bool) (l : list A) : option A :=
  match l with
  | [] => None
  | x :: l' => if p x then Some x else find_first p l'
  end.

(** The first index of the loop [for i in range(len(l)): if ...: break]. *)
Fixpoint find_index_from {A} (p : A -> bool) (l : list A) (i : nat) : option nat :=
  match l with
  | [] => None
  | x :: l' => if p x then Some i else find_index_from p l' (S i)
  end.

Section Monitor.

(** Python's [float()] on text other than plain digit strings: [None]
    stands for [ValueError]. *)
Variable float_lit : string -> option spec_float.

(** [float(s)] for text [s].  A literal never contains a comma; digits
    between optional white space denote the nearest float. *)
Definition py_float (s : string) : result spec_float :=
  if Text.has_comma s then Raise ValueError
  else
    let t := Text.strip s in
    if Text.isdigit t then Ok (F64.of_Z (Text.digits_value t))
    else match float_lit s with
         | Some f => Ok f
         | None => Raise ValueError
         end.

(** [int(float(s))] *)
Definition int_of_float_text (s : string) : result Z :=
  let? f := py_float s in F64.to_int f.

Definition excluded_header (header : string) : bool :=
  String.eqb header "specification"
  || String.eqb header "gizzard"
  || String.eqb header "total".

(** The loop of [calculate_total_pieces]. *)
Definition total_pieces_loop (headers values : list string) : result Z :=
  for_range (List.length headers)
    (fun i total =>
       let? h := Py.list_getitem headers i in
       let header := Text.lower h in
       if negb (excluded_header header) then
         except_value_type
           (let? val := Py.list_getitem values i in
            if Text.isdigit (Text.remove_commas (Text.strip val)) then
              let? n := int_of_float_text val in
              Ok (total + n)%Z
            else Ok total)
           (Ok total)
       else Ok total)
    0%Z.

Definition calculate_total_pieces (stock_data : Table) : option Z :=
  except_all
    (let? headers := Py.list_getitem stock_data 0 in
     let? values := Py.list_getitem stock_data 1 in
     let? total := total_pieces_loop headers values in
     Ok (Some total))
    None.

(** [int(total_pieces - inventory_balance)] *)
Definition int_difference (total_pieces : Z) (inventory_balance : spec_float)
  : result Z :=
  let? t := F64.of_int total_pieces in
  F64.to_int (F64.sub t inventory_balance).

(** The weight read by the loop over the headers: [None] stands for the
    initial integer [0]. *)
Definition current_gizzard_weight (headers values : list string)
  : result (option spec_float) :=
  match find_index_from (fun h => String.eqb (Text.lower h) "gizzard") headers 0 with
  | Some i =>
      except_value_type
        (let? val := Py.list_getitem values i in
         let? w := py_float val in
         Ok (Some w))
        (Ok None)
  | None => Ok None
  end.

Definition calculate_current_differences (stock_data : Table)
  (inventory_balance gizzard_inventory_balance : option spec_float)
  : Atom * Atom :=
  except_all
    (let total_pieces := calculate_total_pieces stock_data in
     let? whole_chicken_diff :=
       match total_pieces, inventory_balance with
       | Some t, Some b => let? d := int_difference t b in Ok (AInt d)
       | _, _ => Ok ANone
       end in
     let? headers := Py.list_getitem stock_data 0 in
     let? values := Py.list_getitem stock_data 1 in
     let? weight := current_gizzard_weight headers values in
     let gizzard_diff :=
       match weight, gizzard_inventory_balance with
       | Some w, Some b =>
           if F64.ltb F64.zero w then AFloat (F64.sub w b) else ANone
       | _, _ => ANone
       end in
     Ok (whole_chicken_diff, gizzard_diff))
    (ANone, ANone).

(** *** Period selection in the inventory ledger *)

(** The sort key: the [year_month] cell, or [''] for a short row. *)
Definition year_month_key (year_month_col_index : nat) (row : list string)
  : string :=
  if (year_month_col_index <? List.length row)%nat
  then nth year_month_col_index row ""
  else "".

Definition is_current_month (year_month_col_index : nat)
  (current_year_month : string) (row : list string) : bool :=
  (year_month_col_index <? List.length row)%nat
  && String.eqb (nth year_month_col_index row "") current_year_month.

(** The row the balance is read from. *)
Definition select_row (year_month_col_index : nat) (current_year_month : string)
  (data_rows : Table) : result (option (list string)) :=
  match find_first (is_current_month year_month_col_index current_year_month)
          data_rows with
  | Some row => Ok (Some row)
  | None =>
      match sorted_desc (year_month_key year_month_col_index) data_rows with
      | row :: _ =>
          (* the log line reads the year_month cell of the row *)
          let? _ := Py.list_getitem row year_month_col_index in
          Ok (Some row)
      | [] => Ok None
      end
  end.

(** The balance cell of the selected row as a float. *)
Definition balance_of_row (balance_col_index : nat) (row : list string)
  : option spec_float :=
  if (balance_col_index <? List.length row)%nat then
    match py_float (nth balance_col_index row "") with
    | Ok balance => Some balance
    | Raise _ => None
    end
  else None.

(** [get_inventory_balance] and [get_gizzard_inventory_balance] differ
    in the balance column only.  [response] is the value range the sheet
    API returned, [None] when the request raised. *)
Definition ledger_balance (balance_column : string) (response : option Table)
  (current_year_month : string) : option spec_float :=
  match response with
  | None => None
  | Some data =>
      if (List.length data <? 2)%nat then None
      else
        except_all
          (let? headers := Py.list_getitem data 0 in
           match (let? b := list_index balance_column headers in
                  let? y := list_index "year_month" headers in
                  Ok (b, y)) with
           | Raise _ => Ok None
           | Ok (balance_col_index, year_month_col_index) =>
               let data_rows := skipn 1 data in
               let? selected :=
                 select_row year_month_col_index current_year_month data_rows in
               match selected with
               | Some row => Ok (balance_of_row balance_col_index row)
               | None => Ok None
               end
           end)
          None
  end.

Definition get_inventory_balance :=
  ledger_balance "whole_chicken_quantity_stock_balance".

Definition get_gizzard_inventory_balance :=
  ledger_balance "gizzard_weight_stock_balance".

End Monitor.

(** ** Alert formatting and the run

    Only the control flow and the exceptions of the formatters are kept. *)

Section Run.

Variable float_lit : string -> option spec_float.

(** [float(v) if str(v).strip().replace(...).isdigit() else None] inside
    a [try] that catches [ValueError] and [TypeError]. *)
Definition guarded_float (clean : string -> string) (v : PyVal) : result unit :=
  match v with
  | PAtom (AStr s) =>
      if Text.isdigit (clean (Text.strip s)) then
        let? _ := py_float float_lit s in Ok tt
      else Ok tt
  | _ => Ok tt
  end.

Definition format_change_line (clean : string -> string) (c : Change)
  : result unit :=
  let '(_, old_val, new_val) := c in
  except_value_type
    (let? _ := guarded_float clean old_val in
     let? _ := guarded_float clean new_val in
     Ok tt)
    (Ok tt).

Fixpoint for_each {A} (f : A -> result unit) (l : list A) : result unit :=
  match l with
  | [] => Ok tt
  | x :: l' => let? _ := f x in for_each f l'
  end.

(** The loop over the headers in [format_stock_section]; the accumulator
    is [total_pieces]. *)
Definition stock_levels_loop (headers values : list string) : result Z :=
  for_range (List.length headers)
    (fun i total_pieces =>
       let? h := Py.list_getitem headers i in
       if negb (String.eqb (Text.lower h) "specification") then
         except_value_type
           (let is_weight := String.eqb (Text.lower h) "gizzard" in
            let? val := Py.list_getitem values i in
            if is_weight then
              if Text.isdigit (Text.remove_first_dot (Text.strip val)) then
                let? _ := py_float float_lit val in Ok total_pieces
              else Ok total_pieces
            else
              if Text.isdigit (Text.remove_commas (Text.strip val)) then
                let? total_pieces' :=
                  if String.eqb (Text.lower h) "total"
                  then int_of_float_text float_lit val
                  else Ok total_pieces in
                let? _ := int_of_float_text float_lit val in
                Ok total_pieces'
              else Ok total_pieces)
           (let? _ := Py.list_getitem values i in Ok total_pieces)
       else Ok total_pieces)
    0%Z.

Definition format_stock_section (stock_changes : list Change)
  (stock_data : Table) (inventory_balance gizzard_inventory_balance : option spec_float)
  : result unit :=
  let? _ :=
    for_each
      (fun c =>
         let '(spec, _, _) := c in
         if String.eqb (Text.lower spec) "gizzard"
         then format_change_line Text.remove_first_dot c
         else format_change_line Text.remove_commas c)
      stock_changes in
  let? headers := Py.list_getitem stock_data 0 in
  let? values := Py.list_getitem stock_data 1 in
  let? total_pieces := stock_levels_loop headers values in
  match inventory_balance with
  | Some b =>
      if (0 <? total_pieces)%Z then
        let? difference := int_difference total_pieces b in
        if (difference =? 0)%Z then Ok tt
        else let? _ := F64.to_int b in Ok tt
      else Ok tt
  | None => Ok tt
  end.

Definition format_parts_section (parts_changes : list Change)
  (parts_data : Table) : result unit :=
  let? _ := for_each (format_change_line Text.remove_first_dot) parts_changes in
  let part_headers := table_row_tail parts_data 0 in
  let values := table_row_tail parts_data 1 in
  for_range (Nat.min (List.length part_headers) (List.length values))
    (fun i _ =>
       match
         (let? val := Py.list_getitem values i in
          let? _ := Py.list_getitem part_headers i in
          if Text.isdigit (Text.remove_first_dot (Text.strip val)) then
            let? _ := py_float float_lit val in Ok tt
          else Ok tt)
       with
       | Raise ValueError | Raise TypeError | Raise IndexError => Ok tt
       | r => r
       end)
    tt.

Definition no_changes (l : list Change) : bool :=
  match l with [] => true | _ => false end.

(** [post_ok] tells whether the webhook request went through; when it
    did not, the [RequestException] is caught and [False] returned.
    The lines for the difference changes, the balance comparisons and
    the time stamp format numbers and dates only and do not raise. *)
Definition send_combined_alert (post_ok : bool)
  (stock_changes : list Change) (stock_data : Table)
  (parts_changes : list Change) (parts_data : Table)
  (inventory_balance gizzard_inventory_balance : option spec_float)
  (chicken_difference_changes gizzard_difference_changes : list Change)
  : result bool :=
  if no_changes stock_changes && no_changes parts_changes
     && no_changes chicken_difference_changes
     && no_changes gizzard_difference_changes
  then Ok true
  else
    let? _ := format_stock_section stock_changes stock_data
                inventory_balance gizzard_inventory_balance in
    let? _ := format_parts_section parts_changes parts_data in
    Ok post_ok.

(** What one run meets outside the program. *)
Record Env : Type := mkEnv {
  webhook_url : option string;
  service_ok : bool;
  stock_response : option Table;
  parts_response : option Table;
  inventory_response : option Table;
  gizzard_response : option Table;
  current_year_month : string;
  post_ok : bool
}.

(** [response] is the value range returned by the sheet API, [None]
    when the request raised. *)
Definition get_sheet_data (response : option Table) : result Table :=
  match response with
  | Some data =>
      if (List.length data <? 2)%nat
      then Raise (APIError "Unexpected error while fetching data")
      else Ok data
  | None => Raise (APIError "Failed to fetch data from Google Sheets")
  end.

Definition load (state_file : StateFile) : M PyVal :=
  fun st => (Ok (load_previous_state state_file st), st).

(** The end of the [try] block of [main]: "always update all state
    files at the end". *)
Definition save_all_states (stock_data parts_data : Table)
  (current_chicken_diff current_gizzard_diff : Atom) : M unit :=
  save_current_state (table_val stock_data) STOCK_STATE_FILE ;;;
  save_current_state (table_val parts_data) PARTS_STATE_FILE ;;;
  save_current_state (PAtom current_chicken_diff) WHOLE_CHICKEN_DIFF_STATE_FILE ;;;
  save_current_state (PAtom current_gizzard_diff) GIZZARD_DIFF_STATE_FILE.

(** The [try] block of [main]. *)
Definition main_body (env : Env) : M unit :=
  _ <- lift (match webhook_url env with
             | Some url => if String.eqb url "" then Raise ValueError else Ok tt
             | None => Raise ValueError
             end) ;;
  _ <- lift (if service_ok env then Ok tt
             else Raise (APIError "Failed to initialize Google Sheets service")) ;;
  stock_data <- lift (get_sheet_data (stock_response env)) ;;
  parts_data <- lift (get_sheet_data (parts_response env)) ;;
  let inventory_balance :=
    get_inventory_balance float_lit (inventory_response env)
      (current_year_month env) in
  let gizzard_inventory_balance :=
    get_gizzard_inventory_balance float_lit (gizzard_response env)
      (current_year_month env) in
  previous_stock_data <- load STOCK_STATE_FILE ;;
  previous_parts_data <- load PARTS_STATE_FILE ;;
  previous_chicken_diff <- load WHOLE_CHICKEN_DIFF_STATE_FILE ;;
  previous_gizzard_diff <- load GIZZARD_DIFF_STATE_FILE ;;
  let '(current_chicken_diff, current_gizzard_diff) :=
    calculate_current_differences float_lit stock_data
      inventory_balance gizzard_inventory_balance in
  stock_changes <-
    (if negb (Py.truthy previous_stock_data) then ret []
     else detect_stock_changes previous_stock_data stock_data) ;;
  parts_changes <-
    (if negb (Py.truthy previous_parts_data) then ret []
     else detect_parts_changes previous_parts_data parts_data) ;;
  chicken_difference_changes <-
    (if Py.is_none previous_chicken_diff then ret []
     else lift (detect_chicken_difference_changes
                  previous_chicken_diff current_chicken_diff)) ;;
  gizzard_difference_changes <-
    (if Py.is_none previous_gizzard_diff then ret []
     else lift (detect_gizzard_difference_changes
                  previous_gizzard_diff current_gizzard_diff)) ;;
  _ <- (if negb (no_changes stock_changes && no_changes parts_changes
                 && no_changes chicken_difference_changes
                 && no_changes gizzard_difference_changes)
        then lift (send_combined_alert (post_ok env)
                     stock_changes stock_data parts_changes parts_data
                     inventory_balance gizzard_inventory_balance
                     chicken_difference_changes gizzard_difference_changes)
        else ret true) ;;
  save_all_states stock_data parts_data current_chicken_diff current_gizzard_diff.

(** [main]: every exception of the body is logged and dropped.  The
    state files are those left when the body ended. *)
Definition main (env : Env) (st : Store) : Store :=
  snd (try_except (main_body env) (fun _ => ret tt) st).

End Run.


(** ** Reference definitions for the comparators *)

(** The change list read off the columns: every position whose two cells
    differ as trimmed text gives one change under the header of that
    position, in column order. *)
Fixpoint changes_by_position (headers prev curr : list string) : list Change :=
  match headers, prev, curr with
  | h :: headers', p :: prev', c :: curr' =>
      (if string_dec (Text.strip p) (Text.strip c) then []
       else [(h, cell p, cell c)])
      ++ changes_by_position headers' prev' curr'
  | _, _, _ => []
  end.

(** The changes that report columns absent from the previous row: the
    old value is the empty text. *)
Definition from_empty_changes (headers curr : list string) : list Change :=
  map (fun hc => (fst hc, cell "", cell (snd hc))) (combine headers curr).

(** The previous values after padding or trimming to the current ones. *)
Definition aligned_previous (ps cs : list string) : list string :=
  if (List.length ps <? List.length cs)%nat
  then ps ++ repeat "" (List.length cs - List.length ps)
  else if (List.length cs <? List.length ps)%nat
       then firstn (List.length cs) ps
       else ps.

(** The four state files hold the values of the current run. *)
Definition holds_current (st : Store) (stock_data parts_data : Table)
  (current_chicken_diff current_gizzard_diff : Atom) : Prop :=
  stock_state st = Some (table_val stock_data)
  /\ parts_state st = Some (table_val parts_data)
  /\ chicken_diff_state st = Some (PAtom current_chicken_diff)
  /\ gizzard_diff_state st = Some (PAtom current_gizzard_diff).

(** The fetches of a run succeeded and delivered these two tables. *)
Definition fetches_succeed (env : Env) (stock_data parts_data : Table) : Prop :=
  (exists url, webhook_url env = Some url /\ url <> "")
  /\ service_ok env = true
  /\ get_sheet_data (stock_response env) = Ok stock_data
  /\ get_sheet_data (parts_response env) = Ok parts_data.

(** The differences a run computes from what it fetched. *)
Definition current_differences (float_lit : string -> option spec_float)
  (env : Env) (stock_data : Table) : Atom * Atom :=
  calculate_current_differences float_lit stock_data
    (get_inventory_balance float_lit (inventory_response env)
       (current_year_month env))
    (get_gizzard_inventory_balance float_lit (gizzard_response env)
       (current_year_month env)).

Definition with_post_ok (b : bool) (env : Env) : Env :=
  mkEnv (webhook_url env) (service_ok env) (stock_response env)
    (parts_response env) (inventory_response env) (gizzard_response env)
    (current_year_month env) b.

(** What [calculate_current_differences] may return in either
    component: a number or [None]. *)
Definition number_or_none (a : Atom) : bool :=
  match a with
  | AStr _ => false
  | _ => true
  end.

(** Example sheets: a stock sheet, a parts sheet and a ledger. *)
Definition stock_sheet : Table :=
  [["Specification"; "Breast"; "Wing"; "Gizzard"]; ["Balance"; "10"; "6"; "3"]].

Definition parts_sheet : Table :=
  [["Parts"; "Liver"]; ["Balance"; "2"]].

Definition ledger : Table :=
  [["year_month"; "whole_chicken_quantity_stock_balance";
    "gizzard_weight_stock_balance"];
   ["2025-01"; "20"; "4"];
   ["2025-02"; "16"; "3"]].

(** A run in which every fetch delivers its sheet; [post] tells whether
    the webhook request goes through. *)
Definition plain_env (post : bool) : Env :=
  mkEnv (Some "https://chat.example/hook") true
    (Some stock_sheet) (Some parts_sheet) (Some ledger) (Some ledger)
    "2025-02" post.

(** The same run with the ledger out of reach. *)
Definition ledger_down_env : Env :=
  mkEnv (Some "https://chat.example/hook") true
    (Some stock_sheet) (Some parts_sheet) None None "2025-02" true.

(** A stock sheet whose value row is shorter than its header, as the
    sheet API delivers a row that ends in empty cells. *)
Definition short_row_env : Env :=
  mkEnv (Some "https://chat.example/hook") true
    (Some [["Specification"; "Breast"; "Wing"]; ["Balance"; "10"]])
    (Some parts_sheet) (Some ledger) (Some ledger) "2025-02" true.

(** State files written by an earlier run, with other values than the
    sheets have now. *)
Definition earlier_state : Store :=
  mkStore
    (Some (table_val [["Specification"; "Breast"; "Wing"; "Gizzard"];
                      ["Balance"; "10"; "5"; "3"]]))
    (Some (table_val [["Parts"; "Liver"]; ["Balance"; "1"]]))
    (Some (PAtom (AInt 5)))
    (Some (PAtom (AFloat (F64.of_Z 3))))
    (fun _ => true).

(** The same, but the stock state file holds a list that is not a table:
    its second element is a number where the value row should be. *)
Definition foreign_stock_state : Store :=
  mkStore
    (Some (PList [RList ["Specification"; "Breast"; "Wing"; "Gizzard"];
                  RAtom (AInt 7)]))
    (Some (table_val [["Parts"; "Liver"]; ["Balance"; "1"]]))
    (Some (PAtom (AInt 5)))
    (Some (PAtom (AFloat (F64.of_Z 3))))
    (fun _ => true).

(** No state file yet, and a data directory that can be written. *)
Definition empty_store : Store :=
  mkStore None None None None (fun _ => true).

(** The parts state file holds a list whose second element is a number,
    and cannot be written. *)
Definition locked_parts_state : Store :=
  mkStore None (Some (PList [RList ["Parts"; "Liver"]; RAtom (AInt 7)]))
    None None
    (fun f => match f with PARTS_STATE_FILE => false | _ => true end).

(** ** Reference definitions for the further properties *)

(** Two cells that are the same text once trimmed. *)
Definition same_trimmed (p c : string) : Prop := Text.strip p = Text.strip c.

(** What one column adds to the total of pieces. *)
Definition column_pieces (float_lit : string -> option spec_float)
  (header value : string) : result Z :=
  if excluded_header (Text.lower header) then Ok 0%Z
  else if Text.isdigit (Text.remove_commas (Text.strip value)) then
         except_value_type (int_of_float_text float_lit value) (Ok 0%Z)
       else Ok 0%Z.

(** The total of pieces column by column; a header that counts and has
    no value under it ends the sum with [IndexError]. *)
Fixpoint total_by_column (float_lit : string -> option spec_float)
  (headers values : list string) (total : Z) : result Z :=
  match headers with
  | [] => Ok total
  | h :: headers' =>
      match values with
      | v :: values' =>
          let? n := column_pieces float_lit h v in
          total_by_column float_lit headers' values' (total + n)%Z
      | [] =>
          if excluded_header (Text.lower h)
          then total_by_column float_lit headers' [] total
          else Raise IndexError
      end
  end.





(** The values the validation of a state file lets through: a number
    or [None] for a difference file, a non-empty sequence of at least
    two elements for a snapshot file. *)
Definition accepted_state (f : StateFile) (v : PyVal) : bool :=
  if is_diff_state f then Py.is_int_or_float v || Py.is_none v
  else match too_few_rows v with
       | Ok false => true
       | _ => false
       end.

(** * Properties *)

(** ** Loops and text *)

Lemma cell_differs_iff (p c : string) :
  cell_differs p c = true <-> Text.strip p <> Text.strip c.
Proof.
  unfold cell_differs. rewrite negb_true_iff. apply String.eqb_neq.
Qed.

Lemma cell_differs_refl (c : string) : cell_differs c c = false.
Proof.
  unfold cell_differs. now rewrite String.eqb_refl.
Qed.

Lemma nth_error_middle {A} (l0 l : list A) (x : A) :
  nth_error (l0 ++ x :: l) (List.length l0) = Some x.
Proof.
  induction l0 as [| y l0 IH]; simpl; auto.
Qed.

Lemma app_cons_assoc {A} (l0 l : list A) (x : A) :
  l0 ++ x :: l = (l0 ++ [x]) ++ l.
Proof.
  now rewrite <- app_assoc.
Qed.

(** One round of the loop at a position inside the three rows. *)
Lemma compare_position_middle (h0 p0 c0 hs ps cs : list string) (h p c : string)
  (changes : list Change) :
  List.length p0 = List.length h0 ->
  List.length c0 = List.length h0 ->
  compare_position (h0 ++ h :: hs) (RList (p0 ++ p :: ps)) (c0 ++ c :: cs)
    (List.length h0) changes
  = Ok (changes ++ changes_by_position [h] [p] [c]).
Proof.
  intros Hp Hc. unfold compare_position, Py.row_getitem, Py.list_getitem.
  rewrite <- Hp at 1. rewrite nth_error_middle. simpl.
  rewrite <- Hc at 1. rewrite nth_error_middle. simpl.
  destruct (cell_differs p c) eqn:D.
  - rewrite nth_error_middle. simpl.
    apply cell_differs_iff in D.
    destruct (string_dec (Text.strip p) (Text.strip c)); [contradiction|].
    reflexivity.
  - destruct (string_dec (Text.strip p) (Text.strip c)) as [|N].
    + simpl. now rewrite app_nil_r.
    + apply cell_differs_iff in N. congruence.
Qed.

(** The loop of the positional comparator computes the reference list. *)
Lemma compare_loop_from (hs : list string) :
  forall (ps cs h0 p0 c0 : list string) (changes : list Change),
    List.length ps = List.length hs ->
    List.length cs = List.length hs ->
    List.length p0 = List.length h0 ->
    List.length c0 = List.length h0 ->
    for_range_from (List.length h0) (List.length hs)
      (compare_position (h0 ++ hs) (RList (p0 ++ ps)) (c0 ++ cs)) changes
    = Ok (changes ++ changes_by_position hs ps cs).
Proof.
  induction hs as [| h hs IH]; intros ps cs h0 p0 c0 changes Lp Lc Lp0 Lc0.
  - simpl. now rewrite app_nil_r.
  - destruct ps as [| p ps]; [discriminate|].
    destruct cs as [| c cs]; [discriminate|].
    simpl in Lp, Lc.
    cbn [List.length for_range_from].
    rewrite compare_position_middle by assumption.
    cbn [rbind].
    rewrite (app_cons_assoc h0), (app_cons_assoc p0), (app_cons_assoc c0).
    replace (S (List.length h0)) with (List.length (h0 ++ [h]))
      by (rewrite length_app; simpl; lia).
    rewrite IH; try lia; try (rewrite !length_app; simpl; lia).
    rewrite <- app_assoc. cbn [changes_by_position].
    now rewrite app_nil_r.
Qed.

Lemma stock_compare_loop_spec (hs ps cs : list string) :
  List.length ps = List.length hs ->
  List.length cs = List.length hs ->
  stock_compare_loop hs (RList ps) cs (List.length ps)
  = Ok (changes_by_position hs ps cs).
Proof.
  intros Lp Lc. unfold stock_compare_loop, for_range.
  rewrite Lp.
  exact (compare_loop_from hs ps cs [] [] [] [] Lp Lc eq_refl eq_refl).
Qed.

Lemma for_range_from_ext {A} (body body' : nat -> A -> result A) :
  forall (n start : nat) (acc : A),
    (forall i a, start <= i < start + n -> body i a = body' i a) ->
    for_range_from start n body acc = for_range_from start n body' acc.
Proof.
  induction n as [| n IH]; intros start acc E; simpl; auto.
  rewrite E by lia.
  destruct (body' start acc) as [a|e]; simpl; auto.
  apply IH. intros i a' Hi. apply E. lia.
Qed.

Lemma parts_compare_loop_spec (hs ps cs : list string) :
  List.length ps = List.length hs ->
  List.length cs = List.length hs ->
  parts_compare_loop hs (RList ps) cs = Ok (changes_by_position hs ps cs).
Proof.
  intros Lp Lc. unfold parts_compare_loop, for_range.
  rewrite for_range_from_ext with (body' := compare_position hs (RList ps) cs).
  - exact (compare_loop_from hs ps cs [] [] [] [] Lp Lc eq_refl eq_refl).
  - intros i a Hi. simpl.
    replace (List.length ps <=? i)%nat with false
      by (symmetry; apply Nat.leb_gt; lia).
    replace (List.length cs <=? i)%nat with false
      by (symmetry; apply Nat.leb_gt; lia).
    reflexivity.
Qed.

Lemma changes_by_position_same (hs cs : list string) :
  changes_by_position hs cs cs = [].
Proof.
  revert cs. induction hs as [| h hs IH]; intros [| c cs]; simpl; auto.
  destruct (string_dec (Text.strip c) (Text.strip c)); [|congruence].
  apply IH.
Qed.

(** ** The comparators on two tables *)

Lemma skipn_1_tl {A} (l : list A) : skipn 1 l = tl l.
Proof. destruct l; reflexivity. Qed.

Lemma tail_if_longer {A} (l : list A) :
  (if (1 <? List.length l)%nat then skipn 1 l else []) = tl l.
Proof.
  destruct l as [| x [| y l]]; reflexivity.
Qed.

Lemma table_row_tail_0 (r : list string) (t : Table) :
  table_row_tail (r :: t) 0 = tl r.
Proof.
  unfold table_row_tail. simpl. apply tail_if_longer.
Qed.

Lemma table_row_tail_1 (r0 r : list string) (t : Table) :
  table_row_tail (r0 :: r :: t) 1 = tl r.
Proof.
  unfold table_row_tail. simpl. apply tail_if_longer.
Qed.

Lemma previous_row_tail_table (r0 r : list string) (t : Table) :
  previous_row_tail (table_val (r0 :: r :: t)) = Ok (RList (tl r)).
Proof.
  unfold previous_row_tail. simpl.
  destruct r as [| x [| y l]]; reflexivity.
Qed.

Lemma save_table_cases (t : Table) (f : StateFile) (st : Store) :
  is_diff_state f = false ->
  save_current_state (table_val t) f st
  = if (List.length t <? 2)%nat then (Ok tt, st)
    else if writable st f
         then (Ok tt, write_file f (table_val t) st)
         else (Raise (APIError "Failed to save state file"), st).
Proof.
  intros Hf. unfold save_current_state, bind, lift, ret. rewrite Hf.
  destruct t as [| r0 [| r1 t]]; reflexivity.
Qed.

Lemma save_table_step (t : Table) (f : StateFile) (st : Store) :
  is_diff_state f = false ->
  2 <= List.length t ->
  save_current_state (table_val t) f st
  = if writable st f
    then (Ok tt, write_file f (table_val t) st)
    else (Raise (APIError "Failed to save state file"), st).
Proof.
  intros Hf Ht. rewrite save_table_cases by assumption.
  now replace (List.length t <? 2)%nat with false
    by (symmetry; apply Nat.ltb_ge; lia).
Qed.

Lemma save_table_writes (t : Table) (f : StateFile) (st : Store) :
  is_diff_state f = false ->
  2 <= List.length t ->
  writable st f = true ->
  save_current_state (table_val t) f st = (Ok tt, write_file f (table_val t) st).
Proof.
  intros Hf Ht Hw. rewrite save_table_step by assumption. now rewrite Hw.
Qed.

Lemma detect_stock_changes_tables (ph prow : list string) (prest : Table)
  (hs crow : list string) (crest : Table) (st : Store) :
  detect_stock_changes (table_val (ph :: prow :: prest)) (hs :: crow :: crest) st
  = if negb (List.length prow =? List.length crow)%nat
       || negb (List.length hs =? List.length crow)%nat
    then
      if writable st STOCK_STATE_FILE
      then (Ok [], write_file STOCK_STATE_FILE (table_val (hs :: crow :: crest)) st)
      else (Raise (APIError "Failed to compare stock states"), st)
    else match stock_compare_loop hs (RList prow) crow (List.length prow) with
         | Ok changes => (Ok changes, st)
         | Raise _ => (Raise (APIError "Failed to compare stock states"), st)
         end.
Proof.
  unfold detect_stock_changes, try_except, bind, lift, ret, raise.
  cbn [table_val map Py.truthy negb Py.getitem nth_error Py.list_getitem
       Py.row_len].
  destruct (negb (List.length prow =? List.length crow)%nat
            || negb (List.length hs =? List.length crow)%nat).
  - change (PList (RList hs :: RList crow :: map RList crest))
      with (table_val (hs :: crow :: crest)).
    rewrite save_table_step by (reflexivity || (simpl; lia)).
    destruct (writable st STOCK_STATE_FILE); reflexivity.
  - destruct (stock_compare_loop hs (RList prow) crow (List.length prow));
      reflexivity.
Qed.

Lemma aligned_previous_length (ps cs : list string) :
  List.length (aligned_previous ps cs) = List.length cs.
Proof.
  unfold aligned_previous.
  destruct (List.length ps <? List.length cs)%nat eqn:E1.
  - apply Nat.ltb_lt in E1. rewrite length_app, repeat_length. lia.
  - destruct (List.length cs <? List.length ps)%nat eqn:E2.
    + apply Nat.ltb_lt in E2. rewrite length_firstn. lia.
    + apply Nat.ltb_ge in E1. apply Nat.ltb_ge in E2. lia.
Qed.

Lemma parts_align_and_compare (hs ps cs : list string) :
  List.length cs = List.length hs ->
  (let? n_prev := Py.row_len (RList ps) in
   let? prev_values :=
     if (n_prev <? List.length cs)%nat then
       Py.row_add_list (RList ps) (repeat "" (List.length cs - n_prev))
     else if (List.length cs <? n_prev)%nat then
       Py.row_slice_to (List.length cs) (RList ps)
     else Ok (RList ps) in
   parts_compare_loop hs prev_values cs)
  = Ok (changes_by_position hs (aligned_previous ps cs) cs).
Proof.
  intros L. cbn [Py.row_len rbind].
  assert (E : (if (List.length ps <? List.length cs)%nat
               then Py.row_add_list (RList ps)
                      (repeat "" (List.length cs - List.length ps))
               else if (List.length cs <? List.length ps)%nat
                    then Py.row_slice_to (List.length cs) (RList ps)
                    else Ok (RList ps))
              = Ok (RList (aligned_previous ps cs))).
  { unfold aligned_previous.
    destruct (List.length ps <? List.length cs)%nat; [reflexivity|].
    destruct (List.length cs <? List.length ps)%nat; reflexivity. }
  rewrite E. cbn [rbind].
  apply parts_compare_loop_spec; [|assumption].
  rewrite aligned_previous_length. assumption.
Qed.

Lemma aligned_previous_firstn (ps cs : list string) :
  aligned_previous (firstn (List.length cs) ps) cs = aligned_previous ps cs.
Proof.
  unfold aligned_previous. rewrite length_firstn.
  destruct (List.length ps <? List.length cs)%nat eqn:E1.
  - pose proof E1 as E1'. apply Nat.ltb_lt in E1'.
    replace (Nat.min (List.length cs) (List.length ps)) with (List.length ps) by lia.
    rewrite E1. now rewrite firstn_all2 by lia.
  - apply Nat.ltb_ge in E1.
    replace (Nat.min (List.length cs) (List.length ps)) with (List.length cs) by lia.
    rewrite !Nat.ltb_irrefl.
    destruct (List.length cs <? List.length ps)%nat eqn:E2; [reflexivity|].
    apply Nat.ltb_ge in E2. now rewrite firstn_all2 by lia.
Qed.

Lemma parts_compare_tables_gen (ph prow : list string) (prest : Table)
  (chdr crow : list string) (crest : Table) :
  let n := Nat.min (List.length (tl chdr)) (List.length (tl crow)) in
  parts_compare (table_val (ph :: prow :: prest)) (chdr :: crow :: crest)
  = Ok (changes_by_position (firstn n (tl chdr))
          (aligned_previous (tl prow) (firstn n (tl crow)))
          (firstn n (tl crow))).
Proof.
  intros n. unfold parts_compare.
  rewrite previous_row_tail_table, table_row_tail_0, table_row_tail_1.
  cbn [rbind].
  set (hs := tl chdr) in *. set (cs := tl crow) in *. set (ps := tl prow) in *.
  assert (Lh : List.length (firstn n hs) = n)
    by (rewrite length_firstn; unfold n; lia).
  assert (Lc : List.length (firstn n cs) = n)
    by (rewrite length_firstn; unfold n; lia).
  destruct (List.length hs =? List.length cs)%nat eqn:L; cbn [negb rbind].
  - apply Nat.eqb_eq in L.
    rewrite (firstn_all2 (n := n) hs) by (unfold n; lia).
    rewrite (firstn_all2 (n := n) cs) by (unfold n; lia).
    apply parts_align_and_compare. lia.
  - cbn [Py.row_len rbind]. fold n.
    destruct (n <? List.length ps)%nat eqn:L2; cbn [Py.row_slice_to rbind].
    + rewrite parts_align_and_compare by lia.
      replace (firstn n ps) with (firstn (List.length (firstn n cs)) ps)
        by (now rewrite Lc).
      now rewrite aligned_previous_firstn.
    + now rewrite parts_align_and_compare by lia.
Qed.

Lemma parts_compare_tables (ph prow : list string) (prest : Table)
  (chdr crow : list string) (crest : Table) :
  List.length (tl crow) = List.length (tl chdr) ->
  parts_compare (table_val (ph :: prow :: prest)) (chdr :: crow :: crest)
  = Ok (changes_by_position (tl chdr)
          (aligned_previous (tl prow) (tl crow)) (tl crow)).
Proof.
  intros L. rewrite parts_compare_tables_gen.
  replace (Nat.min (List.length (tl chdr)) (List.length (tl crow)))
    with (List.length (tl chdr)) by lia.
  rewrite (firstn_all2 (n := List.length (tl chdr)) (tl chdr)) by lia.
  now rewrite (firstn_all2 (n := List.length (tl chdr)) (tl crow)) by lia.
Qed.

Lemma detect_parts_changes_tables (ph prow : list string) (prest : Table)
  (chdr crow : list string) (crest : Table) (st : Store) :
  List.length (tl crow) = List.length (tl chdr) ->
  detect_parts_changes (table_val (ph :: prow :: prest)) (chdr :: crow :: crest) st
  = (Ok (changes_by_position (tl chdr)
           (aligned_previous (tl prow) (tl crow)) (tl crow)), st).
Proof.
  intros L. unfold detect_parts_changes, try_except, lift.
  rewrite parts_compare_tables by assumption. reflexivity.
Qed.

Lemma detect_parts_changes_tables_gen (ph prow : list string) (prest : Table)
  (chdr crow : list string) (crest : Table) (st : Store) :
  let n := Nat.min (List.length (tl chdr)) (List.length (tl crow)) in
  detect_parts_changes (table_val (ph :: prow :: prest)) (chdr :: crow :: crest) st
  = (Ok (changes_by_position (firstn n (tl chdr))
           (aligned_previous (tl prow) (firstn n (tl crow)))
           (firstn n (tl crow))), st).
Proof.
  intros n. unfold detect_parts_changes, try_except, lift.
  rewrite parts_compare_tables_gen. reflexivity.
Qed.

Lemma changes_by_position_In (hs ps cs : list string) (h p c : string) :
  In (h, cell p, cell c) (changes_by_position hs ps cs)
  <-> exists i, nth_error hs i = Some h /\ nth_error ps i = Some p
                /\ nth_error cs i = Some c
                /\ Text.strip p <> Text.strip c.
Proof.
  revert ps cs. induction hs as [| h' hs IH]; intros ps cs.
  - simpl. split; [contradiction|]. intros [[|i] [H _]]; discriminate.
  - destruct ps as [| p' ps].
    { simpl. split; [contradiction|]. intros [[|i] [_ [H _]]]; discriminate. }
    destruct cs as [| c' cs].
    { simpl. split; [contradiction|]. intros [[|i] [_ [_ [H _]]]]; discriminate. }
    cbn [changes_by_position]. rewrite in_app_iff, IH. split.
    + intros [H | [i Hi]].
      * destruct (string_dec (Text.strip p') (Text.strip c')) as [|N];
          [contradiction|].
        destruct H as [H|[]]. inversion H; subst.
        exists 0. simpl. auto.
      * exists (S i). exact Hi.
    + intros [[|i] (Hh & Hp & Hc & N)].
      * simpl in Hh, Hp, Hc. inversion Hh; inversion Hp; inversion Hc; subst.
        left. destruct (string_dec (Text.strip p) (Text.strip c));
          [contradiction|]. now left.
      * right. exists i. auto.
Qed.

Lemma changes_by_position_at (hs ps cs : list string) (i : nat) (h p c : string) :
  nth_error hs i = Some h -> nth_error ps i = Some p -> nth_error cs i = Some c ->
  In (h, cell p, cell c) (changes_by_position hs ps cs)
  <-> Text.strip p <> Text.strip c.
Proof.
  intros Hh Hp Hc. rewrite changes_by_position_In. split.
  - intros [j (_ & _ & _ & N)]. exact N.
  - intros N. exists i. auto.
Qed.

Lemma aligned_previous_same_length (ps cs : list string) :
  List.length ps = List.length cs -> aligned_previous ps cs = ps.
Proof.
  intros L. unfold aligned_previous. rewrite L, Nat.ltb_irrefl. reflexivity.
Qed.

Lemma tl_length {A} (l : list A) : List.length (tl l) = List.length l - 1.
Proof. destruct l; simpl; lia. Qed.

Lemma load_after_table_write (t : Table) (f : StateFile) (st : Store) :
  is_diff_state f = false ->
  2 <= List.length t ->
  load_previous_state f (write_file f (table_val t) st) = table_val t.
Proof.
  intros Hf Ht. unfold load_previous_state.
  replace (read_file f (write_file f (table_val t) st)) with (Some (table_val t))
    by (destruct f; reflexivity).
  rewrite Hf.
  destruct t as [| r0 [| r1 t]]; simpl in Ht; try lia.
  reflexivity.
Qed.

(** ** Claims about the tabular comparators *)

(** C3.  Positional comparator, schema change: when the previous value
    row, the current value row and the current header do not all have
    the same length, [detect_stock_changes] returns no change and writes
    the current snapshot to the stock state file (a file that can be
    written), so that the next load of that file gives the current
    snapshot. *)
Theorem stock_length_mismatch_resets_baseline
  (ph prow : list string) (prest : Table)
  (hs crow : list string) (crest : Table) (st : Store) :
  ~ (List.length prow = List.length crow /\ List.length hs = List.length crow) ->
  writable st STOCK_STATE_FILE = true ->
  let current := hs :: crow :: crest in
  detect_stock_changes (table_val (ph :: prow :: prest)) current st
  = (Ok [], write_file STOCK_STATE_FILE (table_val current) st)
  /\ load_previous_state STOCK_STATE_FILE
       (snd (detect_stock_changes (table_val (ph :: prow :: prest)) current st))
     = table_val current.
Proof.
  intros N W current. unfold current.
  rewrite detect_stock_changes_tables, W.
  destruct (negb (List.length prow =? List.length crow)%nat
            || negb (List.length hs =? List.length crow)%nat) eqn:E.
  - split; [reflexivity|]. cbn [snd].
    apply load_after_table_write; [reflexivity | simpl; lia].
  - apply orb_false_elim in E. destruct E as [E1 E2].
    apply negb_false_iff in E1, E2.
    apply Nat.eqb_eq in E1, E2. tauto.
Qed.

Lemma stock_length_mismatch_resets_baseline_witness :
  let st := mkStore (Some (table_val [["Breast"; "Wing"]; ["10"; "5"]]))
              None None None (fun _ => true) in
  let current := [["Breast"; "Wing"; "Leg"]; ["10"; "5"; "7"]] in
  detect_stock_changes (table_val [["Breast"; "Wing"]; ["10"; "5"]]) current st
  = (Ok [], write_file STOCK_STATE_FILE (table_val current) st)
  /\ load_previous_state STOCK_STATE_FILE
       (snd (detect_stock_changes (table_val [["Breast"; "Wing"]; ["10"; "5"]])
               current st))
     = table_val current.
Proof.
  intros st current.
  apply (stock_length_mismatch_resets_baseline
           ["Breast"; "Wing"] ["10"; "5"] []
           ["Breast"; "Wing"; "Leg"] ["10"; "5"; "7"] [] st).
  - simpl. lia.
  - reflexivity.
Defined.

(** C7.  Comparing a snapshot whose header and value row have the same
    length against itself gives no change, in the positional and in the
    named comparator, and writes nothing. *)
Theorem self_comparison_yields_no_changes
  (hs row : list string) (rest : Table) (st : Store) :
  List.length hs = List.length row ->
  let snapshot := hs :: row :: rest in
  detect_stock_changes (table_val snapshot) snapshot st = (Ok [], st)
  /\ detect_parts_changes (table_val snapshot) snapshot st = (Ok [], st).
Proof.
  intros L snapshot. unfold snapshot. split.
  - rewrite detect_stock_changes_tables.
    rewrite L, !Nat.eqb_refl. cbn [negb orb].
    rewrite stock_compare_loop_spec by lia.
    now rewrite changes_by_position_same.
  - rewrite detect_parts_changes_tables by (rewrite !tl_length; lia).
    rewrite aligned_previous_same_length by reflexivity.
    now rewrite changes_by_position_same.
Qed.

Lemma self_comparison_yields_no_changes_witness :
  let snapshot := [["Parts"; "Breast"; "Wing"]; ["Balance"; "10"; " 5 "]] in
  let st := empty_store in
  detect_stock_changes (table_val snapshot) snapshot st = (Ok [], st)
  /\ detect_parts_changes (table_val snapshot) snapshot st = (Ok [], st).
Proof.
  intros snapshot st.
  apply (self_comparison_yields_no_changes
           ["Parts"; "Breast"; "Wing"] ["Balance"; "10"; " 5 "] [] st).
  reflexivity.
Defined.

(** C8.  With rows of equal length, both comparators return the changes
    read off the columns; the change of a position (its header, old and
    new cell) is in the returned list if and only if the two cells differ
    after trimming surrounding white space.  "5" and "5.0" differ, "5 "
    and "5" do not. *)
Theorem change_iff_trimmed_text_differs :
  (forall (ph prow : list string) (prest : Table)
          (hs crow : list string) (crest : Table) (st : Store)
          (i : nat) (h p c : string),
      List.length prow = List.length crow ->
      List.length hs = List.length crow ->
      nth_error hs i = Some h ->
      nth_error prow i = Some p ->
      nth_error crow i = Some c ->
      detect_stock_changes (table_val (ph :: prow :: prest)) (hs :: crow :: crest) st
      = (Ok (changes_by_position hs prow crow), st)
      /\ (In (h, cell p, cell c) (changes_by_position hs prow crow)
          <-> Text.strip p <> Text.strip c))
  /\ (forall (ph prow : list string) (prest : Table)
             (chdr crow : list string) (crest : Table) (st : Store)
             (i : nat) (h p c : string),
         List.length (tl prow) = List.length (tl crow) ->
         List.length (tl chdr) = List.length (tl crow) ->
         nth_error (tl chdr) i = Some h ->
         nth_error (tl prow) i = Some p ->
         nth_error (tl crow) i = Some c ->
         detect_parts_changes (table_val (ph :: prow :: prest))
           (chdr :: crow :: crest) st
         = (Ok (changes_by_position (tl chdr) (tl prow) (tl crow)), st)
         /\ (In (h, cell p, cell c)
               (changes_by_position (tl chdr) (tl prow) (tl crow))
             <-> Text.strip p <> Text.strip c))
  /\ Text.strip "5" <> Text.strip "5.0"
  /\ Text.strip "5 " = Text.strip "5".
Proof.
  split; [|split; [|split]].
  - intros ph prow prest hs crow crest st i h p c Lp Lh Hh Hp Hc. split.
    + rewrite detect_stock_changes_tables.
      rewrite Lp, Lh, !Nat.eqb_refl. cbn [negb orb].
      rewrite <- Lp. now rewrite stock_compare_loop_spec by lia.
    + now apply changes_by_position_at with (i := i).
  - intros ph prow prest chdr crow crest st i h p c Lp Lh Hh Hp Hc. split.
    + rewrite detect_parts_changes_tables by lia.
      now rewrite aligned_previous_same_length.
    + now apply changes_by_position_at with (i := i).
  - vm_compute. discriminate.
  - reflexivity.
Qed.

Lemma change_iff_trimmed_text_differs_witness :
  let st := empty_store in
  (detect_stock_changes (table_val [["Wing"]; ["5"]]) [["Wing"]; ["5.0"]] st
   = (Ok [("Wing", cell "5", cell "5.0")], st)
   /\ (In ("Wing", cell "5", cell "5.0") [("Wing", cell "5", cell "5.0")]
       <-> Text.strip "5" <> Text.strip "5.0"))
  /\ (detect_parts_changes (table_val [["Parts"; "Wing"]; ["Balance"; "5 "]])
        [["Parts"; "Wing"]; ["Balance"; "5"]] st
      = (Ok [], st)
      /\ (In ("Wing", cell "5 ", cell "5") [] <-> Text.strip "5 " <> Text.strip "5")).
Proof.
  intros st. split.
  - exact (proj1 change_iff_trimmed_text_differs
             ["Wing"] ["5"] [] ["Wing"] ["5.0"] [] st 0 "Wing" "5" "5.0"
             eq_refl eq_refl eq_refl eq_refl eq_refl).
  - exact (proj1 (proj2 change_iff_trimmed_text_differs)
             ["Parts"; "Wing"] ["Balance"; "5 "] []
             ["Parts"; "Wing"] ["Balance"; "5"] [] st 0 "Wing" "5 " "5"
             eq_refl eq_refl eq_refl eq_refl eq_refl).
Defined.

Lemma changes_by_position_app (h1 : list string) :
  forall (p1 c1 h2 p2 c2 : list string),
    List.length p1 = List.length h1 ->
    List.length c1 = List.length h1 ->
    changes_by_position (h1 ++ h2) (p1 ++ p2) (c1 ++ c2)
    = changes_by_position h1 p1 c1 ++ changes_by_position h2 p2 c2.
Proof.
  induction h1 as [| h h1 IH]; intros [| p p1] [| c c1] h2 p2 c2 Lp Lc;
    try discriminate.
  - reflexivity.
  - simpl in Lp, Lc. simpl. rewrite IH by lia. now rewrite app_assoc.
Qed.

Lemma changes_from_empty (hs : list string) :
  forall cs : list string,
    List.length cs = List.length hs ->
    Forall (fun c => Text.strip c <> "") cs ->
    changes_by_position hs (repeat "" (List.length cs)) cs
    = from_empty_changes hs cs.
Proof.
  unfold from_empty_changes.
  induction hs as [| h hs IH]; intros [| c cs] L F; try discriminate.
  - reflexivity.
  - simpl in L. inversion F as [| c' cs' Hc Hcs]; subst.
    cbn [List.length repeat changes_by_position combine map fst snd].
    destruct (string_dec (Text.strip "") (Text.strip c)) as [E|_].
    + exfalso. apply Hc. symmetry. exact E.
    + simpl. f_equal. apply IH; [lia | assumption].
Qed.

Lemma aligned_previous_shorter (ps cs : list string) :
  List.length ps <= List.length cs ->
  aligned_previous ps cs = ps ++ repeat "" (List.length cs - List.length ps).
Proof.
  intros L. unfold aligned_previous.
  destruct (List.length ps <? List.length cs)%nat eqn:E; [reflexivity|].
  apply Nat.ltb_ge in E.
  replace (List.length cs <? List.length ps)%nat with false
    by (symmetry; apply Nat.ltb_ge; lia).
  replace (List.length cs - List.length ps) with 0 by lia.
  simpl. now rewrite app_nil_r.
Qed.

Lemma from_empty_changes_length (hs cs : list string) :
  List.length hs = List.length cs ->
  List.length (from_empty_changes hs cs) = List.length cs.
Proof.
  intros L. unfold from_empty_changes.
  rewrite length_map, length_combine. lia.
Qed.

(** C4.  Named comparator, new trailing columns: when the previous
    values (label dropped) are [k] fewer than the current headers, and
    the current values under the [k] trailing headers are there and not
    empty after trimming, the comparator returns the changes of the
    columns both rows have, and after them exactly [k] changes whose old
    value is the empty text, one for each trailing column in order. *)
Theorem new_trailing_columns_change_from_empty
  (ph prow : list string) (prest : Table)
  (chdr crow : list string) (crest : Table) (st : Store) (k : nat) :
  let ps := tl prow in
  let hs := tl chdr in
  let cs := firstn (List.length hs) (tl crow) in
  List.length hs = List.length ps + k ->
  List.length hs <= List.length (tl crow) ->
  Forall (fun c => Text.strip c <> "") (skipn (List.length ps) cs) ->
  detect_parts_changes (table_val (ph :: prow :: prest)) (chdr :: crow :: crest) st
  = (Ok (changes_by_position (firstn (List.length ps) hs) ps
           (firstn (List.length ps) cs)
         ++ from_empty_changes (skipn (List.length ps) hs)
              (skipn (List.length ps) cs)), st)
  /\ List.length (from_empty_changes (skipn (List.length ps) hs)
                    (skipn (List.length ps) cs)) = k.
Proof.
  intros ps hs cs Lh Lc F.
  assert (Lcs : List.length cs = List.length hs)
    by (unfold cs; rewrite length_firstn; lia).
  split.
  - rewrite detect_parts_changes_tables_gen.
    fold ps hs.
    replace (Nat.min (List.length hs) (List.length (tl crow)))
      with (List.length hs) by lia.
    fold cs. rewrite (firstn_all2 (n := List.length hs) hs) by lia.
    do 2 f_equal.
    rewrite aligned_previous_shorter by lia.
    rewrite <- (firstn_skipn (List.length ps) hs) at 1.
    rewrite <- (firstn_skipn (List.length ps) cs) at 2.
    rewrite changes_by_position_app
      by (rewrite !length_firstn; lia).
    f_equal.
    replace (List.length cs - List.length ps)
      with (List.length (skipn (List.length ps) cs))
      by (rewrite length_skipn; lia).
    apply changes_from_empty; [|assumption].
    rewrite !length_skipn. lia.
  - rewrite from_empty_changes_length; rewrite !length_skipn; lia.
Qed.

Lemma new_trailing_columns_change_from_empty_witness :
  let st := empty_store in
  detect_parts_changes (table_val [["Parts"; "A"]; ["Balance"; "1.5"]])
    [["Parts"; "A"; "B"; "C"]; ["Balance"; "1.5 "; "2"; "3"]] st
  = (Ok [("B", cell "", cell "2"); ("C", cell "", cell "3")], st)
  /\ List.length [("B", cell "", cell "2"); ("C", cell "", cell "3")] = 2.
Proof.
  intros st.
  apply (new_trailing_columns_change_from_empty
           ["Parts"; "A"] ["Balance"; "1.5"] []
           ["Parts"; "A"; "B"; "C"] ["Balance"; "1.5 "; "2"; "3"] [] st 2).
  - reflexivity.
  - reflexivity.
  - repeat constructor; vm_compute; discriminate.
Defined.

(** C9 as stated fails: the comparison raises on the malformed previous
    state, the handler tries to write the parts state file, the write
    fails, and the [APIError] of [save_current_state] leaves the
    comparator. *)
Lemma failed_self_heal_write_propagates :
  let previous := PList [RList ["Parts"; "Liver"]; RAtom (AInt 7)] in
  let current := parts_sheet in
  Py.truthy previous = true
  /\ detect_parts_changes previous current locked_parts_state
     = (Raise (APIError "Failed to save state file"), locked_parts_state).
Proof.
  split; reflexivity.
Qed.

(** C9, amended.  The named comparator never lets an exception of the
    comparison out.  When the comparison raises on a non-empty previous
    state, the exception is caught and the current parts snapshot
    (header and value row at least) is written to the parts state file;
    with the write done, no change is returned.  The only exception
    that can leave the comparator is the [APIError] of a failed write
    in that handler. *)
Theorem parts_comparator_contains_failures
  (previous_data : PyVal) (current_data : Table) (st : Store) :
  (writable st PARTS_STATE_FILE = true ->
   (exists changes st',
       detect_parts_changes previous_data current_data st = (Ok changes, st'))
   /\ (forall e,
          Py.truthy previous_data = true ->
          parts_compare previous_data current_data = Raise e ->
          2 <= List.length current_data ->
          detect_parts_changes previous_data current_data st
          = (Ok [], write_file PARTS_STATE_FILE (table_val current_data) st)))
  /\ (forall e st',
         detect_parts_changes previous_data current_data st = (Raise e, st') ->
         e = APIError "Failed to save state file"
         /\ writable st PARTS_STATE_FILE = false
         /\ exists e', parts_compare previous_data current_data = Raise e').
Proof.
  unfold detect_parts_changes.
  destruct (Py.truthy previous_data); cbn [negb].
  - unfold try_except, lift, bind.
    destruct (parts_compare previous_data current_data) as [changes|e0].
    + split.
      * intros _. split; [eauto|]. intros e _ R. discriminate R.
      * intros e st' H. discriminate H.
    + rewrite save_table_cases by reflexivity. unfold ret.
      destruct (List.length current_data <? 2)%nat eqn:L2.
      * split.
        -- intros _. split; [eauto|]. intros e _ _ L.
           apply Nat.ltb_lt in L2. lia.
        -- intros e st' H. discriminate H.
      * destruct (writable st PARTS_STATE_FILE).
        -- split.
           ++ intros _. split; [eauto|]. intros e _ _ _. reflexivity.
           ++ intros e st' H. discriminate H.
        -- split.
           ++ intros W. discriminate W.
           ++ intros e st' H. inversion H; subst. eauto.
  - unfold ret. split.
    + intros _. split; [eauto|]. intros e T. discriminate T.
    + intros e st' H. discriminate H.
Qed.

Lemma parts_comparator_contains_failures_witness :
  let previous := PList [RList ["Parts"; "Liver"]; RAtom (AInt 7)] in
  let current := parts_sheet in
  parts_compare previous current = Raise TypeError
  /\ detect_parts_changes previous current foreign_stock_state
     = (Ok [], write_file PARTS_STATE_FILE (table_val current) foreign_stock_state).
Proof.
  intros previous current. split.
  - reflexivity.
  - apply (proj2 (proj1 (parts_comparator_contains_failures
                           previous current foreign_stock_state)
                    eq_refl)
             TypeError).
    + reflexivity.
    + reflexivity.
    + simpl. lia.
Defined.

(** ** The tolerance comparator *)

Lemma SFcompare_antisym (x y : spec_float) :
  SFcompare y x = option_map CompOpp (SFcompare x y).
Proof.
  destruct x as [sx | sx | | sx mx ex], y as [sy | sy | | sy my ey];
    try destruct sx; try destruct sy; try reflexivity;
    cbn [SFcompare option_map]; f_equal;
    rewrite (Z.compare_antisym ex ey);
    destruct (ex ?= ey)%Z; cbn [CompOpp]; try reflexivity;
    pose proof (Pos.compare_cont_antisym mx my Eq) as H;
    cbn [CompOpp] in H; rewrite <- H;
    now destruct (Pos.compare_cont Eq mx my).
Qed.

Lemma ltb_excludes_leb (x y : spec_float) :
  F64.ltb x y = true -> F64.leb y x = false.
Proof.
  unfold F64.ltb, F64.leb, SFltb, SFleb.
  rewrite (SFcompare_antisym x y).
  destruct (SFcompare x y) as [[| |]|]; simpl; congruence.
Qed.

(** C5.  Tolerance comparator on two floats [p] (previous) and [c]
    (current), with the difference and the threshold as Python computes
    them in binary64: one change labelled 'Gizzard Balance Difference'
    when [abs(p - c) >= 0.01], none when [abs(p - c) < 0.01]; none when
    the previous or the current difference is [None]. *)
Theorem gizzard_change_iff_beyond_tolerance :
  (forall p c : spec_float,
      F64.leb F64.c_0_01 (F64.abs (F64.sub p c)) = true ->
      detect_gizzard_difference_changes (PAtom (AFloat p)) (AFloat c)
      = Ok [("Gizzard Balance Difference", PAtom (AFloat p), PAtom (AFloat c))])
  /\ (forall p c : spec_float,
         F64.ltb (F64.abs (F64.sub p c)) F64.c_0_01 = true ->
         detect_gizzard_difference_changes (PAtom (AFloat p)) (AFloat c) = Ok [])
  /\ (forall current : Atom,
         detect_gizzard_difference_changes PNone current = Ok [])
  /\ (forall previous : PyVal,
         detect_gizzard_difference_changes previous ANone = Ok []).
Proof.
  split; [|split; [|split]].
  - intros p c H. unfold detect_gizzard_difference_changes.
    cbn [Py.is_none negb Py.sub Py.atom_sub Py.atom_abs Py.atom_ge_0_01 rbind].
    rewrite H. reflexivity.
  - intros p c H. apply ltb_excludes_leb in H.
    unfold detect_gizzard_difference_changes.
    cbn [Py.is_none negb Py.sub Py.atom_sub Py.atom_abs Py.atom_ge_0_01 rbind].
    rewrite H. reflexivity.
  - reflexivity.
  - intros previous. unfold detect_gizzard_difference_changes.
    destruct (Py.is_none previous); reflexivity.
Qed.

Lemma gizzard_change_iff_beyond_tolerance_witness :
  let f_0_0099 := S754_finite false 5706961447803893 (-59) in
  detect_gizzard_difference_changes (PAtom (AFloat F64.c_0_01)) (AFloat F64.zero)
  = Ok [("Gizzard Balance Difference",
         PAtom (AFloat F64.c_0_01), PAtom (AFloat F64.zero))]
  /\ detect_gizzard_difference_changes (PAtom (AFloat f_0_0099)) (AFloat F64.zero)
     = Ok [].
Proof.
  intros f_0_0099. split.
  - apply (proj1 gizzard_change_iff_beyond_tolerance). reflexivity.
  - apply (proj1 (proj2 gizzard_change_iff_beyond_tolerance)). reflexivity.
Defined.

(** ** Period selection *)

Lemma In_insert_desc {A} (key : A -> string) (x y : A) (l : list A) :
  In y (insert_desc key x l) -> y = x \/ In y l.
Proof.
  induction l as [| z l IH]; simpl.
  - intros [H|[]]; auto.
  - destruct (String.ltb (key x) (key z)); simpl; intuition auto.
Qed.

Lemma In_sorted_desc {A} (key : A -> string) (y : A) (l : list A) :
  In y (sorted_desc key l) -> In y l.
Proof.
  induction l as [| x l IH]; simpl; auto.
  intros H. apply In_insert_desc in H. intuition auto.
Qed.

Lemma string_leb_excludes_ltb (s t : string) :
  String.leb s t = true -> String.ltb t s = false.
Proof.
  unfold String.leb, String.ltb. rewrite (String.compare_antisym t s).
  destruct (String.compare s t); simpl; congruence.
Qed.

(** The descending stable sort puts in front the first row whose key
    is the greatest. *)
Lemma sorted_desc_head {A} (key : A -> string) (before after : list A) (row : A) :
  (forall r, In r before -> String.ltb (key r) (key row) = true) ->
  (forall r, In r after -> String.leb (key r) (key row) = true) ->
  exists rest, sorted_desc key (before ++ row :: after) = row :: rest.
Proof.
  intros Hb Ha. induction before as [| b before IH].
  - simpl. destruct (sorted_desc key after) as [| y s] eqn:E.
    + now exists [].
    + simpl.
      assert (Hy : In y after) by (apply (In_sorted_desc key); rewrite E; now left).
      rewrite (string_leb_excludes_ltb _ _ (Ha y Hy)). eauto.
  - destruct IH as [rest E].
    + intros r Hr. apply Hb. now right.
    + simpl. fold (sorted_desc key (before ++ row :: after)). rewrite E.
      simpl. rewrite (Hb b) by now left. eauto.
Qed.

Lemma find_first_none {A} (p : A -> bool) (l : list A) :
  (forall x, In x l -> p x = false) -> find_first p l = None.
Proof.
  induction l as [| x l IH]; simpl; auto.
  intros H. rewrite (H x) by now left. apply IH. intros y Hy. apply H. now right.
Qed.

Lemma ledger_fallback (float_lit : string -> option spec_float)
  (balance_column : string) (headers : list string)
  (before after : Table) (row : list string) (now : string) (bal ym : nat) :
  list_index balance_column headers = Ok bal ->
  list_index "year_month" headers = Ok ym ->
  (forall r, In r (before ++ row :: after) -> is_current_month ym now r = false) ->
  (forall r, In r before ->
             String.ltb (year_month_key ym r) (year_month_key ym row) = true) ->
  (forall r, In r after ->
             String.leb (year_month_key ym r) (year_month_key ym row) = true) ->
  ym < List.length row ->
  ledger_balance float_lit balance_column
    (Some (headers :: before ++ row :: after)) now
  = balance_of_row float_lit bal row.
Proof.
  intros Hbal Hym Hnone Hb Ha Hlen. unfold ledger_balance.
  replace (List.length (headers :: before ++ row :: after) <? 2)%nat with false
    by (symmetry; apply Nat.ltb_ge; simpl; rewrite length_app; simpl; lia).
  cbn [Py.list_getitem nth_error rbind].
  rewrite Hbal, Hym. cbn [rbind skipn].
  unfold select_row. rewrite (find_first_none _ _ Hnone).
  destruct (sorted_desc_head (year_month_key ym) before after row Hb Ha)
    as [rest E].
  rewrite E. unfold Py.list_getitem.
  destruct (nth_error row ym) as [cell_ym|] eqn:N.
  - reflexivity.
  - apply nth_error_None in N. lia.
Qed.

(** C6.  Period selection without an exact match: when the header names
    the balance column and [year_month], and no data row carries the
    current month, the balance is read from the row whose [year_month]
    cell is the greatest in text order (the first such row of the sheet
    when several share it).  With rows "2024-11", "2024-12", "2025-01"
    and current month "2025-02" that is the row "2025-01". *)
Theorem fallback_uses_greatest_year_month
  (float_lit : string -> option spec_float) :
  (forall (headers : list string) (before after : Table) (row : list string)
          (now : string) (bal ym : nat),
      list_index "whole_chicken_quantity_stock_balance" headers = Ok bal ->
      list_index "year_month" headers = Ok ym ->
      (forall r, In r (before ++ row :: after) ->
                 is_current_month ym now r = false) ->
      (forall r, In r before ->
                 String.ltb (year_month_key ym r) (year_month_key ym row) = true) ->
      (forall r, In r after ->
                 String.leb (year_month_key ym r) (year_month_key ym row) = true) ->
      ym < List.length row ->
      get_inventory_balance float_lit
        (Some (headers :: before ++ row :: after)) now
      = balance_of_row float_lit bal row)
  /\ (forall b1 b2 b3 : string,
         get_inventory_balance float_lit
           (Some [["year_month"; "whole_chicken_quantity_stock_balance"];
                  ["2024-11"; b1]; ["2024-12"; b2]; ["2025-01"; b3]])
           "2025-02"
         = balance_of_row float_lit 1 ["2025-01"; b3]).
Proof.
  split.
  - intros. now apply ledger_fallback with (ym := ym).
  - intros b1 b2 b3.
    apply (@ledger_fallback float_lit "whole_chicken_quantity_stock_balance"
             ["year_month"; "whole_chicken_quantity_stock_balance"]
             [["2024-11"; b1]; ["2024-12"; b2]] [] ["2025-01"; b3]
             "2025-02" 1 0).
    + reflexivity.
    + reflexivity.
    + intros r [H|[H|[H|[]]]]; subst; reflexivity.
    + intros r [H|[H|[]]]; subst; reflexivity.
    + intros r [].
    + simpl. lia.
Qed.

Lemma fallback_uses_greatest_year_month_witness :
  get_inventory_balance (fun _ => None)
    (Some [["year_month"; "whole_chicken_quantity_stock_balance"];
           ["2024-12"; "120"]; ["2025-01"; "135"]; ["2024-11"; "90"]])
    "2025-02"
  = Some (F64.of_Z 135).
Proof.
  apply (proj1 (fallback_uses_greatest_year_month (fun _ => None))
           ["year_month"; "whole_chicken_quantity_stock_balance"]
           [["2024-12"; "120"]] [["2024-11"; "90"]] ["2025-01"; "135"]
           "2025-02" 1 0).
  - reflexivity.
  - reflexivity.
  - intros r [H|[H|[H|[]]]]; subst; reflexivity.
  - intros r [H|[]]; subst; reflexivity.
  - intros r [H|[]]; subst; reflexivity.
  - simpl. lia.
Defined.

(** ** Total pieces *)

(** C2.  [calculate_total_pieces] at a value written with a thousands
    separator: the value passes the digit test after the commas are
    removed, but [float] is applied to the text with its commas, raises
    [ValueError], and the column is skipped.  With headers
    Specification, Breast, Wing and values Balance, "1,000", "12" the
    total is 12; without the comma it is 1012.  A column that is not
    excluded and whose value contains a comma never adds anything. *)
Theorem total_pieces_skips_thousands_separators
  (float_lit : string -> option spec_float) :
  calculate_total_pieces float_lit
    [["Specification"; "Breast"; "Wing"]; ["Balance"; "1,000"; "12"]]
  = Some 12%Z
  /\ calculate_total_pieces float_lit
       [["Specification"; "Breast"; "Wing"]; ["Balance"; "1000"; "12"]]
     = Some 1012%Z
  /\ (forall header value : string,
         excluded_header (Text.lower header) = false ->
         Text.has_comma value = true ->
         calculate_total_pieces float_lit [[header]; [value]] = Some 0%Z).
Proof.
  split; [reflexivity|]. split; [reflexivity|].
  intros header value E C.
  unfold calculate_total_pieces, total_pieces_loop, for_range.
  cbn [Py.list_getitem nth_error rbind List.length for_range_from].
  rewrite E. cbn [negb].
  unfold int_of_float_text, py_float. rewrite C.
  destruct (Text.isdigit (Text.remove_commas (Text.strip value))); reflexivity.
Qed.

Lemma total_pieces_skips_thousands_separators_witness :
  calculate_total_pieces (fun _ => None) [["Breast"]; ["2,500"]] = Some 0%Z.
Proof.
  apply (proj2 (proj2 (total_pieces_skips_thousands_separators (fun _ => None)))).
  - reflexivity.
  - reflexivity.
Defined.

(** ** The run *)

Ltac destruct_innermost_match :=
  match goal with
  | |- context [match ?x with _ => _ end] =>
      lazymatch x with
      | context [match _ with _ => _ end] => fail
      | _ => destruct x eqn:?
      end
  end.

Ltac destruct_innermost_match_but_send :=
  match goal with
  | |- context [match ?x with _ => _ end] =>
      lazymatch x with
      | context [match _ with _ => _ end] => fail
      | send_combined_alert _ _ _ _ _ _ _ _ _ _ => fail
      | _ => destruct x eqn:?
      end
  end.

Lemma current_differences_shape (float_lit : string -> option spec_float)
  (stock_data : Table) (ib gb : option spec_float) :
  number_or_none (fst (calculate_current_differences float_lit stock_data ib gb))
  = true
  /\ number_or_none (snd (calculate_current_differences float_lit stock_data ib gb))
     = true.
Proof.
  unfold calculate_current_differences, except_all, rbind.
  repeat destruct_innermost_match; simpl; auto.
Qed.

Lemma save_scalar_step (a : Atom) (f : StateFile) (st : Store) :
  is_diff_state f = true ->
  number_or_none a = true ->
  save_current_state (PAtom a) f st
  = if writable st f
    then (Ok tt, write_file f (PAtom a) st)
    else (Raise (APIError "Failed to save state file"), st).
Proof.
  intros Hf Ha. unfold save_current_state, bind, ret. rewrite Hf.
  destruct a; try discriminate; reflexivity.
Qed.

(** When the four saves at the end of a run go through, the state
    files hold the current values. *)
Lemma save_all_states_ok (stock_data parts_data : Table) (c g : Atom)
  (st st' : Store) :
  2 <= List.length stock_data ->
  2 <= List.length parts_data ->
  number_or_none c = true ->
  number_or_none g = true ->
  save_all_states stock_data parts_data c g st = (Ok tt, st') ->
  holds_current st' stock_data parts_data c g.
Proof.
  intros Hs Hp Hc Hg. unfold save_all_states, bind.
  rewrite save_table_step by (auto; reflexivity).
  destruct (writable st STOCK_STATE_FILE) eqn:W1; [|discriminate].
  rewrite save_table_step by (auto; reflexivity).
  cbn [write_file writable].
  destruct (writable st PARTS_STATE_FILE) eqn:W2; [|discriminate].
  rewrite save_scalar_step by (auto; reflexivity).
  cbn [write_file writable].
  destruct (writable st WHOLE_CHICKEN_DIFF_STATE_FILE) eqn:W3; [|discriminate].
  rewrite save_scalar_step by (auto; reflexivity).
  cbn [write_file writable stock_state parts_state chicken_diff_state
       gizzard_diff_state].
  destruct (writable st GIZZARD_DIFF_STATE_FILE) eqn:W4; [|discriminate].
  intros H. inversion H; subst. repeat split.
Qed.

Lemma get_sheet_data_rows (response : option Table) (data : Table) :
  get_sheet_data response = Ok data ->
  response = Some data /\ 2 <= List.length data.
Proof.
  unfold get_sheet_data. destruct response as [t|]; [|discriminate].
  destruct (List.length t <? 2)%nat eqn:E; [discriminate|].
  intros H. inversion H; subst. apply Nat.ltb_ge in E. auto.
Qed.

(** A run whose body ends without an exception leaves the four state
    files with the current values. *)
Lemma main_body_completes (float_lit : string -> option spec_float)
  (env : Env) (st st' : Store) (stock_data parts_data : Table) :
  get_sheet_data (stock_response env) = Ok stock_data ->
  get_sheet_data (parts_response env) = Ok parts_data ->
  main_body float_lit env st = (Ok tt, st') ->
  holds_current st' stock_data parts_data
    (fst (current_differences float_lit env stock_data))
    (snd (current_differences float_lit env stock_data)).
Proof.
  intros Hs Hp H.
  destruct (get_sheet_data_rows _ Hs) as [_ Ls].
  destruct (get_sheet_data_rows _ Hp) as [_ Lp].
  unfold main_body, bind, lift, ret, load in H.
  rewrite Hs, Hp in H.
  fold (current_differences float_lit env stock_data) in H.
  destruct (current_differences_shape float_lit stock_data
              (get_inventory_balance float_lit (inventory_response env)
                 (current_year_month env))
              (get_gizzard_inventory_balance float_lit (gizzard_response env)
                 (current_year_month env)))
    as [Sc Sg].
  fold (current_differences float_lit env stock_data) in Sc, Sg.
  destruct (current_differences float_lit env stock_data) as [c g].
  cbn [fst snd] in *.
  repeat match type of H with
         | context [match ?x with _ => _ end] =>
             destruct x eqn:?; try discriminate
         end.
  all: eapply save_all_states_ok; eassumption.
Qed.

Lemma send_post_irrelevant (float_lit : string -> option spec_float)
  (b b' : bool) (sc : list Change) (sd : Table) (pc : list Change) (pd : Table)
  (ib gb : option spec_float) (cc gc : list Change)
  (X : Type) (k : X) (h : exn -> X) :
  match send_combined_alert float_lit b sc sd pc pd ib gb cc gc with
  | Ok _ => k
  | Raise e => h e
  end
  = match send_combined_alert float_lit b' sc sd pc pd ib gb cc gc with
    | Ok _ => k
    | Raise e => h e
    end.
Proof.
  unfold send_combined_alert, rbind.
  repeat destruct_innermost_match; reflexivity.
Qed.

(** Whether the webhook request goes through has no effect on how the
    body of [main] ends, nor on the state files. *)
Lemma main_body_post_irrelevant (float_lit : string -> option spec_float)
  (env : Env) (b : bool) (st : Store) :
  main_body float_lit (with_post_ok b env) st = main_body float_lit env st.
Proof.
  unfold main_body, bind, lift, ret, load.
  cbn [with_post_ok webhook_url service_ok stock_response parts_response
       inventory_response gizzard_response current_year_month post_ok].
  repeat destruct_innermost_match_but_send; try reflexivity.
  all: apply send_post_irrelevant.
Qed.

Lemma main_of_completed_body (float_lit : string -> option spec_float)
  (env : Env) (st st' : Store) :
  main_body float_lit env st = (Ok tt, st') -> main float_lit env st = st'.
Proof.
  intros H. unfold main, try_except. now rewrite H.
Qed.

(** The run over [foreign_stock_state]: the stock comparison raises, the
    run is given up, and no state file is written. *)
Lemma foreign_stock_state_run (float_lit : string -> option spec_float)
  (post : bool) :
  main_body float_lit (plain_env post) foreign_stock_state
  = (Raise (APIError "Failed to compare stock states"), foreign_stock_state).
Proof.
  reflexivity.
Qed.

(** The run over [short_row_env]: the stock comparator resets its own
    state file, the parts comparator reports a change, formatting the
    stock section reads past the end of the value row, and the other
    three state files are not written. *)
Lemma short_row_run (float_lit : string -> option spec_float) :
  main_body float_lit short_row_env earlier_state
  = (Raise IndexError,
     write_file STOCK_STATE_FILE
       (table_val [["Specification"; "Breast"; "Wing"]; ["Balance"; "10"]])
       earlier_state).
Proof.
  reflexivity.
Qed.

(** C1 as stated fails: with the fetches successful, the run over
    [foreign_stock_state] ends in the failed stock comparison and leaves
    the parts state file (and the others) as they were. *)
Lemma failed_comparison_skips_saving :
  ~ (forall (float_lit : string -> option spec_float) (env : Env) (st : Store)
            (stock_data parts_data : Table),
        fetches_succeed env stock_data parts_data ->
        holds_current (main float_lit env st) stock_data parts_data
          (fst (current_differences float_lit env stock_data))
          (snd (current_differences float_lit env stock_data))).
Proof.
  intros H.
  specialize (H (fun _ => None) (plain_env true) foreign_stock_state
                stock_sheet parts_sheet).
  assert (F : fetches_succeed (plain_env true) stock_sheet parts_sheet).
  { repeat split. exists "https://chat.example/hook". split; [reflexivity|].
    discriminate. }
  destruct (H F) as (_ & P & _).
  unfold main, try_except in P. rewrite foreign_stock_state_run in P.
  discriminate P.
Qed.

(** C1, amended.  For every run in which the fetches succeed and the
    body of [main] ends without an exception, the four state files hold
    the current stock table, the current parts table and the two current
    differences when [main] returns; this is so whether the webhook
    request went through or not. *)
Theorem completed_run_overwrites_all_state
  (float_lit : string -> option spec_float) (env : Env) (st st' : Store)
  (stock_data parts_data : Table) :
  fetches_succeed env stock_data parts_data ->
  main_body float_lit env st = (Ok tt, st') ->
  forall b : bool,
    holds_current (main float_lit (with_post_ok b env) st)
      stock_data parts_data
      (fst (current_differences float_lit env stock_data))
      (snd (current_differences float_lit env stock_data)).
Proof.
  intros (_ & _ & Hs & Hp) H b.
  rewrite (@main_of_completed_body float_lit (with_post_ok b env) st st')
    by (now rewrite main_body_post_irrelevant).
  now apply main_body_completes with (st := st).
Qed.

Lemma completed_run_overwrites_all_state_witness :
  holds_current
    (main (fun _ => None) (with_post_ok false (plain_env true)) earlier_state)
    stock_sheet parts_sheet (AInt 0) (AFloat (S754_zero false)).
Proof.
  assert (F : fetches_succeed (plain_env true) stock_sheet parts_sheet).
  { repeat split. exists "https://chat.example/hook". split; [reflexivity|].
    discriminate. }
  exact (@completed_run_overwrites_all_state (fun _ => None) (plain_env true)
           earlier_state
           (main (fun _ => None) (plain_env true) earlier_state)
           stock_sheet parts_sheet F eq_refl false).
Defined.

Lemma load_after_none_write (f : StateFile) (st : Store) :
  is_diff_state f = true ->
  load_previous_state f (write_file f PNone st) = PNone.
Proof.
  intros Hf. unfold load_previous_state.
  replace (read_file f (write_file f PNone st)) with (Some PNone)
    by (destruct f; reflexivity).
  rewrite Hf. reflexivity.
Qed.

Lemma load_none_difference (f : StateFile) (st : Store) :
  is_diff_state f = true ->
  read_file f st = Some PNone ->
  load_previous_state f st = PNone.
Proof.
  intros Hf R. unfold load_previous_state. rewrite R, Hf. reflexivity.
Qed.

(** C10.  Saving [None] to a difference state file is not skipped: the
    file (one that can be written) is overwritten with [None] and the
    next load of it gives no baseline.  So after a run that ends without
    an exception and whose current difference is [None], the difference
    file holds [None], whatever it held before. *)
Theorem unavailable_difference_erases_baseline :
  (forall (f : StateFile) (st : Store),
      is_diff_state f = true ->
      writable st f = true ->
      save_current_state PNone f st = (Ok tt, write_file f PNone st)
      /\ load_previous_state f (write_file f PNone st) = PNone)
  /\ (forall (float_lit : string -> option spec_float) (env : Env)
             (st st' : Store) (stock_data parts_data : Table),
         fetches_succeed env stock_data parts_data ->
         main_body float_lit env st = (Ok tt, st') ->
         (fst (current_differences float_lit env stock_data) = ANone ->
          chicken_diff_state st' = Some PNone
          /\ load_previous_state WHOLE_CHICKEN_DIFF_STATE_FILE st' = PNone)
         /\ (snd (current_differences float_lit env stock_data) = ANone ->
             gizzard_diff_state st' = Some PNone
             /\ load_previous_state GIZZARD_DIFF_STATE_FILE st' = PNone)).
Proof.
  split.
  - intros f st Hf Hw. split.
    + unfold PNone. rewrite save_scalar_step by auto. now rewrite Hw.
    + now apply load_after_none_write.
  - intros float_lit env st st' stock_data parts_data (_ & _ & Hs & Hp) H.
    destruct (main_body_completes float_lit env st Hs Hp H)
      as (_ & _ & Hc & Hg).
    split; intros E; rewrite E in *; (split; [assumption|]);
      now apply load_none_difference.
Qed.

Lemma unavailable_difference_erases_baseline_witness :
  load_previous_state WHOLE_CHICKEN_DIFF_STATE_FILE earlier_state = PAtom (AInt 5)
  /\ chicken_diff_state (main (fun _ => None) ledger_down_env earlier_state)
     = Some PNone
  /\ load_previous_state WHOLE_CHICKEN_DIFF_STATE_FILE
       (main (fun _ => None) ledger_down_env earlier_state)
     = PNone.
Proof.
  split; [reflexivity|].
  assert (F : fetches_succeed ledger_down_env stock_sheet parts_sheet).
  { repeat split. exists "https://chat.example/hook". split; [reflexivity|].
    discriminate. }
  exact (proj1 (proj2 unavailable_difference_erases_baseline
                  (fun _ => None) ledger_down_env earlier_state
                  (main (fun _ => None) ledger_down_env earlier_state)
                  stock_sheet parts_sheet F eq_refl)
               eq_refl).
Defined.

(** * Further properties *)

(** ** Further properties of the snapshot store *)

Lemma read_after_write (f : StateFile) (v : PyVal) (st : Store) :
  read_file f (write_file f v st) = Some v.
Proof. destruct f; reflexivity. Qed.

Lemma read_other_after_write (f g : StateFile) (v : PyVal) (st : Store) :
  g <> f -> read_file g (write_file f v st) = read_file g st.
Proof. destruct f, g; intros N; try reflexivity; congruence. Qed.

Lemma writable_after_write (f : StateFile) (v : PyVal) (st : Store) :
  writable (write_file f v st) = writable st.
Proof. destruct f; reflexivity. Qed.

Lemma save_current_state_cases (v : PyVal) (f : StateFile) (st : Store)
  (r : result unit) (st' : Store) :
  save_current_state v f st = (r, st') ->
  (st' = st)
  \/ (r = Ok tt /\ st' = write_file f v st /\ writable st f = true
      /\ (if is_diff_state f
          then Py.is_int_or_float v || Py.is_none v
          else match too_few_rows v with Ok false => true | _ => false end)
         = true).
Proof.
  unfold save_current_state, bind, lift, ret.
  destruct (is_diff_state f).
  - destruct (negb (Py.is_int_or_float v) && negb (Py.is_none v)) eqn:E.
    + intros H. inversion H. now left.
    + destruct (writable st f) eqn:W; intros H; inversion H; subst.
      * right. repeat split.
        destruct (Py.is_int_or_float v), (Py.is_none v); simpl in *; congruence.
      * now left.
  - destruct (too_few_rows v) as [[|]|e].
    + intros H. inversion H. now left.
    + destruct (writable st f) eqn:W; intros H; inversion H; subst.
      * right. repeat split.
      * now left.
    + intros H. inversion H. now left.
Qed.

(** X1.  Saving and loading agree on what a state file may hold.  A
    save that returns has written the value when the validation lets it
    through, and then loading the same file returns that very value;
    otherwise it has skipped the write and left the files as they
    were. *)
Theorem saved_state_loads_back (v : PyVal) (f : StateFile) (st st' : Store) :
  save_current_state v f st = (Ok tt, st') ->
  if accepted_state f v
  then st' = write_file f v st /\ load_previous_state f st' = v
  else st' = st.
Proof.
  unfold save_current_state, accepted_state, bind, lift, ret.
  destruct (is_diff_state f) eqn:D.
  - destruct (Py.is_int_or_float v) eqn:I; cbn [negb andb orb].
    + destruct (writable st f); intros H; inversion H; subst.
      unfold load_previous_state. rewrite read_after_write, D, I. auto.
    + destruct (Py.is_none v) eqn:N; cbn [negb].
      * destruct (writable st f); intros H; inversion H; subst.
        unfold load_previous_state. rewrite read_after_write, D, I, N. auto.
      * intros H. now inversion H.
  - destruct (too_few_rows v) as [[|]|e] eqn:T.
    + intros H. now inversion H.
    + destruct (writable st f); intros H; inversion H; subst.
      unfold load_previous_state. rewrite read_after_write, D, T. auto.
    + discriminate.
Qed.

Lemma saved_state_loads_back_witness :
  let st' := write_file STOCK_STATE_FILE (table_val stock_sheet) empty_store in
  st' = write_file STOCK_STATE_FILE (table_val stock_sheet) empty_store
  /\ load_previous_state STOCK_STATE_FILE st' = table_val stock_sheet.
Proof.
  intros st'.
  apply (@saved_state_loads_back (table_val stock_sheet) STOCK_STATE_FILE
           empty_store st').
  reflexivity.
Defined.


(** X3.  [save_current_state] touches no other file than its own: what
    the other files hold, what loading them gives, and which files can
    be written are the same before and after, whether the save wrote,
    skipped or failed. *)
Theorem save_touches_one_file (v : PyVal) (f g : StateFile) (st : Store) :
  g <> f ->
  let st' := snd (save_current_state v f st) in
  read_file g st' = read_file g st
  /\ load_previous_state g st' = load_previous_state g st
  /\ writable st' = writable st.
Proof.
  intros N st'.
  destruct (save_current_state v f st) as [r s] eqn:H. unfold st'. cbn [snd].
  destruct (save_current_state_cases _ _ _ H) as [E | (_ & E & _)]; subst s.
  - auto.
  - unfold load_previous_state.
    rewrite read_other_after_write by assumption.
    rewrite writable_after_write. auto.
Qed.

Lemma save_touches_one_file_witness :
  let st' := snd (save_current_state (table_val stock_sheet) STOCK_STATE_FILE
                    earlier_state) in
  read_file PARTS_STATE_FILE st' = read_file PARTS_STATE_FILE earlier_state
  /\ load_previous_state PARTS_STATE_FILE st'
     = load_previous_state PARTS_STATE_FILE earlier_state
  /\ writable st' = writable earlier_state.
Proof.
  apply (@save_touches_one_file (table_val stock_sheet) STOCK_STATE_FILE
           PARTS_STATE_FILE earlier_state).
  discriminate.
Defined.

(** ** Further properties of the comparators *)

Lemma changes_by_position_same_trimmed (hs ps cs : list string) :
  Forall2 same_trimmed ps cs -> changes_by_position hs ps cs = [].
Proof.
  intros F. revert hs. induction F as [| p c ps cs E F IH]; intros [| h hs];
    try reflexivity.
  cbn [changes_by_position].
  destruct (string_dec (Text.strip p) (Text.strip c)); [|contradiction].
  apply IH.
Qed.

Lemma changes_by_position_one (h0 h1 p0 p1 c0 c1 : list string) (h p c : string) :
  Forall2 same_trimmed p0 c0 ->
  Forall2 same_trimmed p1 c1 ->
  List.length h0 = List.length c0 ->
  Text.strip p <> Text.strip c ->
  changes_by_position (h0 ++ h :: h1) (p0 ++ p :: p1) (c0 ++ c :: c1)
  = [(h, cell p, cell c)].
Proof.
  intros F0 F1 L N.
  pose proof (Forall2_length F0) as L0.
  rewrite changes_by_position_app by lia.
  rewrite changes_by_position_same_trimmed by assumption.
  cbn [changes_by_position app].
  destruct (string_dec (Text.strip p) (Text.strip c)); [contradiction|].
  now rewrite changes_by_position_same_trimmed by assumption.
Qed.

(** X4.  Two snapshots whose rows agree, as trimmed text, everywhere
    but at one position give exactly one change, the one of that
    position under its header: in the positional comparator, and in the
    named comparator behind the label column. *)
Theorem one_difference_one_change
  (ph : list string) (prest : Table) (crest : Table) (st : Store)
  (h0 h1 p0 p1 c0 c1 : list string) (h p c : string) :
  Forall2 same_trimmed p0 c0 ->
  Forall2 same_trimmed p1 c1 ->
  List.length h0 = List.length c0 ->
  List.length h1 = List.length c1 ->
  Text.strip p <> Text.strip c ->
  detect_stock_changes
    (table_val (ph :: (p0 ++ p :: p1) :: prest))
    ((h0 ++ h :: h1) :: (c0 ++ c :: c1) :: crest) st
  = (Ok [(h, cell p, cell c)], st)
  /\ (forall lh lp lc : string,
         detect_parts_changes
           (table_val (ph :: (lp :: p0 ++ p :: p1) :: prest))
           ((lh :: h0 ++ h :: h1) :: (lc :: c0 ++ c :: c1) :: crest) st
         = (Ok [(h, cell p, cell c)], st)).
Proof.
  intros F0 F1 L0 L1 N.
  pose proof (Forall2_length F0) as E0.
  pose proof (Forall2_length F1) as E1.
  assert (Lp : List.length (p0 ++ p :: p1) = List.length (c0 ++ c :: c1))
    by (rewrite !length_app; simpl; lia).
  assert (Lh : List.length (h0 ++ h :: h1) = List.length (c0 ++ c :: c1))
    by (rewrite !length_app; simpl; lia).
  split.
  - rewrite detect_stock_changes_tables.
    rewrite Lp, Lh, !Nat.eqb_refl. cbn [negb orb].
    rewrite <- Lp. rewrite stock_compare_loop_spec by lia.
    now rewrite changes_by_position_one.
  - intros lh lp lc.
    rewrite detect_parts_changes_tables by (cbn [tl]; lia).
    cbn [tl]. rewrite aligned_previous_same_length by assumption.
    now rewrite changes_by_position_one.
Qed.

Lemma one_difference_one_change_witness :
  detect_stock_changes
    (table_val [["Breast"; "Wing"]; ["10 "; "5"]])
    [["Breast"; "Wing"]; ["10"; "6"]] empty_store
  = (Ok [("Wing", cell "5", cell "6")], empty_store)
  /\ (forall lh lp lc : string,
         detect_parts_changes
           (table_val [["Breast"; "Wing"]; [lp; "10 "; "5"]])
           [[lh; "Breast"; "Wing"]; [lc; "10"; "6"]] empty_store
         = (Ok [("Wing", cell "5", cell "6")], empty_store)).
Proof.
  apply (@one_difference_one_change ["Breast"; "Wing"] [] [] empty_store
           ["Breast"] [] ["10 "] [] ["10"] [] "Wing" "5" "6").
  - repeat constructor.
  - constructor.
  - reflexivity.
  - reflexivity.
  - vm_compute. discriminate.
Defined.




Lemma changes_by_position_length (hs : list string) :
  forall ps cs : list string,
    List.length (changes_by_position hs ps cs) <= List.length hs.
Proof.
  induction hs as [| h hs IH]; intros [| p ps] [| c cs];
    cbn [changes_by_position List.length]; try lia.
  rewrite length_app. specialize (IH ps cs).
  unfold Change in *.
  destruct (string_dec (Text.strip p) (Text.strip c));
    cbn [List.length]; lia.
Qed.

(** X6.  The named comparator on any two tables, whatever their row
    lengths: with [n] the smaller of the number of current headers and
    of current values (labels dropped), it compares the first [n]
    columns; previous values beyond the current ones are dropped,
    missing ones count as the empty text.  It returns the changes of
    those columns, at most [n], and writes nothing. *)
Theorem named_comparator_on_tables
  (ph prow : list string) (prest : Table)
  (chdr crow : list string) (crest : Table) (st : Store) :
  let n := Nat.min (List.length (tl chdr)) (List.length (tl crow)) in
  let changes :=
    changes_by_position (firstn n (tl chdr))
      (aligned_previous (tl prow) (firstn n (tl crow)))
      (firstn n (tl crow)) in
  detect_parts_changes (table_val (ph :: prow :: prest)) (chdr :: crow :: crest) st
  = (Ok changes, st)
  /\ List.length changes <= n
  /\ List.length (aligned_previous (tl prow) (firstn n (tl crow))) = n.
Proof.
  intros n changes. split; [apply detect_parts_changes_tables_gen|].
  assert (Ln : List.length (firstn n (tl chdr)) = n)
    by (rewrite length_firstn; unfold n; lia).
  split.
  - unfold changes.
    pose proof (changes_by_position_length (firstn n (tl chdr))
                  (aligned_previous (tl prow) (firstn n (tl crow)))
                  (firstn n (tl crow))) as B.
    now rewrite Ln in B.
  - rewrite aligned_previous_length, length_firstn. unfold n. lia.
Qed.

(** ** Further properties of the scalar comparators *)

(** X7.  The exact comparator never raises and reports at most one
    change.  On two integers it reports the change, with both values,
    exactly when they differ; without a previous difference, or without
    a current one, it reports nothing. *)
Theorem chicken_comparator_exact :
  (forall (previous : PyVal) (current : Atom),
      exists changes,
        detect_chicken_difference_changes previous current = Ok changes
        /\ List.length changes <= 1)
  /\ (forall p c : Z,
         detect_chicken_difference_changes (PAtom (AInt p)) (AInt c)
         = Ok (if (p =? c)%Z then []
               else [("Whole Chicken Balance Difference",
                      PAtom (AInt p), PAtom (AInt c))]))
  /\ (forall previous : PyVal,
         detect_chicken_difference_changes previous ANone = Ok [])
  /\ (forall current : Atom,
         detect_chicken_difference_changes PNone current = Ok []).
Proof.
  split; [|split; [|split]].
  - intros previous current. unfold detect_chicken_difference_changes.
    destruct (Py.is_none previous).
    + exists []. auto.
    + destruct (negb (Py.is_none (PAtom current)) && Py.ne previous current);
        eexists; split; try reflexivity; simpl; lia.
  - intros p c. unfold detect_chicken_difference_changes.
    cbn [Py.is_none negb andb Py.ne Py.atom_ne].
    destruct (p =? c)%Z; reflexivity.
  - intros previous. unfold detect_chicken_difference_changes.
    destruct (Py.is_none previous); reflexivity.
  - reflexivity.
Qed.

(** X8.  The tolerance comparator fails in one way only, as [APIError
    "Failed to compare gizzard difference states"].  On two floats it
    never fails and reports at most one change.  A previous difference
    stored as an integer is converted to a float first: within the
    float range it is compared like that float and reported as the
    integer it is; beyond the range the comparison fails. *)
Theorem gizzard_comparator_failures :
  (forall (previous : PyVal) (current : Atom) (e : exn),
      detect_gizzard_difference_changes previous current = Raise e ->
      e = APIError "Failed to compare gizzard difference states")
  /\ (forall p c : spec_float,
         exists changes,
           detect_gizzard_difference_changes (PAtom (AFloat p)) (AFloat c)
           = Ok changes
           /\ List.length changes <= 1)
  /\ (forall (p : Z) (f c : spec_float),
         F64.of_int p = Ok f ->
         detect_gizzard_difference_changes (PAtom (AInt p)) (AFloat c)
         = Ok (if F64.leb F64.c_0_01 (F64.abs (F64.sub f c))
               then [("Gizzard Balance Difference",
                      PAtom (AInt p), PAtom (AFloat c))]
               else []))
  /\ (forall (p : Z) (c : spec_float) (e : exn),
         F64.of_int p = Raise e ->
         detect_gizzard_difference_changes (PAtom (AInt p)) (AFloat c)
         = Raise (APIError "Failed to compare gizzard difference states")).
Proof.
  split; [|split; [|split]].
  - intros previous current e. unfold detect_gizzard_difference_changes.
    destruct (Py.is_none previous); [discriminate|].
    match goal with
    | |- match ?x with _ => _ end = _ -> _ => destruct x
    end; [discriminate|].
    intros H. now inversion H.
  - intros p c. unfold detect_gizzard_difference_changes.
    cbn [Py.is_none negb Py.sub Py.atom_sub Py.atom_abs Py.atom_ge_0_01 rbind].
    destruct (F64.leb F64.c_0_01 (F64.abs (F64.sub p c)));
      eexists; split; try reflexivity; simpl; lia.
  - intros p f c E. unfold detect_gizzard_difference_changes.
    cbn [Py.is_none negb Py.sub Py.atom_sub]. rewrite E.
    cbn [rbind Py.atom_abs Py.atom_ge_0_01].
    destruct (F64.leb F64.c_0_01 (F64.abs (F64.sub f c))); reflexivity.
  - intros p c e E. unfold detect_gizzard_difference_changes.
    cbn [Py.is_none negb Py.sub Py.atom_sub]. rewrite E. reflexivity.
Qed.

Lemma gizzard_comparator_failures_witness :
  detect_gizzard_difference_changes (PAtom (AInt 3)) (AFloat F64.zero)
  = Ok [("Gizzard Balance Difference", PAtom (AInt 3), PAtom (AFloat F64.zero))]
  /\ detect_gizzard_difference_changes (PAtom (AInt (2 ^ 1024))) (AFloat F64.zero)
     = Raise (APIError "Failed to compare gizzard difference states").
Proof.
  split.
  - apply (proj1 (proj2 (proj2 gizzard_comparator_failures)) 3%Z
             (F64.of_Z 3) F64.zero).
    reflexivity.
  - apply (proj2 (proj2 (proj2 gizzard_comparator_failures)) (2 ^ 1024)%Z
             F64.zero OverflowError).
    vm_compute. reflexivity.
Defined.

(** ** Further properties of the total of pieces *)

(** The loop of [calculate_total_pieces] once the values have run out. *)
Lemma total_pieces_loop_exhausted (float_lit : string -> option spec_float)
  (hs : list string) :
  forall (h0 v0 : list string) (total : Z),
    List.length v0 <= List.length h0 ->
    for_range_from (List.length h0) (List.length hs)
      (fun i total =>
         let? h := Py.list_getitem (h0 ++ hs) i in
         let header := Text.lower h in
         if negb (excluded_header header) then
           except_value_type
             (let? val := Py.list_getitem v0 i in
              if Text.isdigit (Text.remove_commas (Text.strip val)) then
                let? n := int_of_float_text float_lit val in
                Ok (total + n)%Z
              else Ok total)
             (Ok total)
         else Ok total)
      total
    = total_by_column float_lit hs [] total.
Proof.
  induction hs as [| h hs IH]; intros h0 v0 total L.
  - reflexivity.
  - cbn [List.length for_range_from total_by_column].
    unfold Py.list_getitem at 1. rewrite nth_error_middle. cbn [rbind].
    unfold Py.list_getitem at 1.
    replace (nth_error v0 (List.length h0)) with (@None string)
      by (symmetry; apply nth_error_None; lia).
    cbn [rbind except_value_type].
    destruct (excluded_header (Text.lower h)); cbn [negb rbind]; [|reflexivity].
    rewrite (app_cons_assoc h0).
    replace (S (List.length h0)) with (List.length (h0 ++ [h]))
      by (rewrite length_app; simpl; lia).
    apply IH. rewrite length_app. simpl. lia.
Qed.

(** One round of the loop adds what the column adds. *)
Lemma total_pieces_round (float_lit : string -> option spec_float)
  (h v : string) (total : Z) :
  (if negb (excluded_header (Text.lower h)) then
     except_value_type
       (let? val := Ok v in
        if Text.isdigit (Text.remove_commas (Text.strip val)) then
          let? n := int_of_float_text float_lit val in
          Ok (total + n)%Z
        else Ok total)
       (Ok total)
   else Ok total)
  = (let? n := column_pieces float_lit h v in Ok (total + n)%Z).
Proof.
  unfold column_pieces. cbn [rbind].
  destruct (excluded_header (Text.lower h)); cbn [negb rbind].
  - now rewrite Z.add_0_r.
  - destruct (Text.isdigit (Text.remove_commas (Text.strip v))); cbn [rbind].
    + destruct (int_of_float_text float_lit v) as [n|[| | | |msg]];
        cbn [rbind except_value_type]; try reflexivity;
        now rewrite Z.add_0_r.
    + now rewrite Z.add_0_r.
Qed.

Lemma total_pieces_loop_from (float_lit : string -> option spec_float)
  (hs : list string) :
  forall (vs h0 v0 : list string) (total : Z),
    List.length v0 = List.length h0 ->
    for_range_from (List.length h0) (List.length hs)
      (fun i total =>
         let? h := Py.list_getitem (h0 ++ hs) i in
         let header := Text.lower h in
         if negb (excluded_header header) then
           except_value_type
             (let? val := Py.list_getitem (v0 ++ vs) i in
              if Text.isdigit (Text.remove_commas (Text.strip val)) then
                let? n := int_of_float_text float_lit val in
                Ok (total + n)%Z
              else Ok total)
             (Ok total)
         else Ok total)
      total
    = total_by_column float_lit hs vs total.
Proof.
  induction hs as [| h hs IH]; intros vs h0 v0 total L.
  - reflexivity.
  - destruct vs as [| v vs].
    + rewrite app_nil_r. apply total_pieces_loop_exhausted. lia.
    + cbn [List.length for_range_from total_by_column].
      unfold Py.list_getitem at 1. rewrite nth_error_middle. cbn [rbind].
      unfold Py.list_getitem at 1. rewrite <- L at 1.
      rewrite nth_error_middle.
      cbv zeta. rewrite (total_pieces_round float_lit h v total).
      destruct (column_pieces float_lit h v) as [n|e]; cbn [rbind];
        [|reflexivity].
      rewrite (app_cons_assoc h0), (app_cons_assoc v0).
      replace (S (List.length h0)) with (List.length (h0 ++ [h]))
        by (rewrite length_app; simpl; lia).
      apply IH. rewrite !length_app. simpl. lia.
Qed.

Lemma total_pieces_loop_by_column (float_lit : string -> option spec_float)
  (headers values : list string) :
  total_pieces_loop float_lit headers values
  = total_by_column float_lit headers values 0.
Proof.
  unfold total_pieces_loop, for_range.
  exact (total_pieces_loop_from float_lit headers values [] [] 0%Z eq_refl).
Qed.

Lemma calculate_total_pieces_by_column (float_lit : string -> option spec_float)
  (headers values : list string) (rest : Table) :
  calculate_total_pieces float_lit (headers :: values :: rest)
  = match total_by_column float_lit headers values 0 with
    | Ok total => Some total
    | Raise _ => None
    end.
Proof.
  unfold calculate_total_pieces, except_all.
  cbn [Py.list_getitem nth_error rbind].
  rewrite total_pieces_loop_by_column.
  destruct (total_by_column float_lit headers values 0); reflexivity.
Qed.

(** *** Integers as floats *)

Lemma shr_1_nonneg (mrs : shr_record) :
  (0 <= shr_m mrs)%Z -> (0 <= shr_m (shr_1 mrs))%Z.
Proof.
  destruct mrs as [m r s]. cbn [shr_m].
  destruct m as [| [p|p|] | p]; cbn; lia.
Qed.

Lemma iter_pos_shr_1_nonneg (p : positive) :
  forall mrs : shr_record,
    (0 <= shr_m mrs)%Z -> (0 <= shr_m (iter_pos shr_1 p mrs))%Z.
Proof.
  induction p as [p IH | p IH |]; intros mrs H; cbn [iter_pos].
  - apply IH. apply IH. now apply shr_1_nonneg.
  - apply IH. now apply IH.
  - now apply shr_1_nonneg.
Qed.

Lemma shr_fexp_nonneg (m e : Z) (l : location) :
  (0 <= m)%Z -> (0 <= shr_m (fst (shr_fexp F64.prec F64.emax m e l)))%Z.
Proof.
  intros H. unfold shr_fexp, shr.
  assert (H0 : (0 <= shr_m (shr_record_of_loc m l))%Z)
    by (destruct l as [|[| |]]; exact H).
  destruct (fexp F64.prec F64.emax (Zdigits2 m + e) - e)%Z; cbn [fst];
    try exact H0.
  now apply iter_pos_shr_1_nonneg.
Qed.

Lemma round_nearest_even_nonneg (m : Z) (l : location) :
  (0 <= m)%Z -> (0 <= round_nearest_even m l)%Z.
Proof.
  intros H. unfold round_nearest_even.
  destruct l as [|[| |]]; try destruct (Z.even m); lia.
Qed.

(** Rounding a non-negative mantissa gives a zero, a finite float or an
    infinity, with the sign that was asked for. *)
Lemma binary_round_aux_shape (sx : bool) (mx ex : Z) (lx : location) :
  (0 <= mx)%Z ->
  match binary_round_aux F64.prec F64.emax sx mx ex lx with
  | S754_zero s | S754_infinity s | S754_finite s _ _ => s = sx
  | S754_nan => False
  end.
Proof.
  intros H. unfold binary_round_aux.
  pose proof (@shr_fexp_nonneg mx ex lx H) as H1.
  destruct (shr_fexp F64.prec F64.emax mx ex lx) as [mrs' e'].
  cbn [fst] in H1.
  pose proof (@round_nearest_even_nonneg (shr_m mrs') (loc_of_shr_record mrs') H1)
    as H2.
  pose proof (@shr_fexp_nonneg _ e' loc_Exact H2) as H3.
  destruct (shr_fexp F64.prec F64.emax
              (round_nearest_even (shr_m mrs') (loc_of_shr_record mrs')) e'
              loc_Exact) as [mrs'' e''].
  cbn [fst] in H3.
  destruct (shr_m mrs'') as [| m | m]; try reflexivity; try lia.
  destruct (e'' <=? F64.emax - F64.prec)%Z; reflexivity.
Qed.

(** [float(n)] of a non-negative integer is not negative and not NaN. *)
Lemma of_Z_nonneg_shape (n : Z) :
  (0 <= n)%Z ->
  match F64.of_Z n with
  | S754_zero s | S754_infinity s | S754_finite s _ _ => s = false
  | S754_nan => False
  end.
Proof.
  intros H. unfold F64.of_Z, binary_normalize.
  destruct n as [| m | m]; try reflexivity; try lia.
  unfold binary_round.
  destruct (shl_align m 0 (fexp F64.prec F64.emax (Z.pos (digits2_pos m) + 0)))
    as [mz ez].
  apply binary_round_aux_shape. lia.
Qed.

(** [int(float(n))] of a non-negative integer is a non-negative integer,
    or fails with [OverflowError]. *)
Lemma int_of_float_nonneg (n : Z) :
  (0 <= n)%Z ->
  match F64.to_int (F64.of_Z n) with
  | Ok k => (0 <= k)%Z
  | Raise e => e = OverflowError
  end.
Proof.
  intros H. pose proof (@of_Z_nonneg_shape n H) as S.
  destruct (F64.of_Z n) as [s | s | | s m e]; cbn [F64.to_int];
    try lia; try reflexivity; try contradiction.
  subst s. destruct e as [| p | p].
  - apply Z.shiftl_nonneg. lia.
  - apply Z.shiftl_nonneg. lia.
  - apply Z.shiftr_nonneg. lia.
Qed.

(** *** Commas, white space and digits *)

Lemma has_comma_In (s : string) :
  Text.has_comma s = true <-> In ","%char (list_ascii_of_string s).
Proof.
  induction s as [| c s IH]; cbn [Text.has_comma list_ascii_of_string In].
  - split; [discriminate | contradiction].
  - rewrite orb_true_iff, IH, Ascii.eqb_eq. tauto.
Qed.

Lemma lstrip_keeps (c : ascii) (l : list ascii) :
  Text.is_space c = false ->
  (In c (Text.lstrip_chars l) <-> In c l).
Proof.
  intros N. induction l as [| x l IH]; cbn [Text.lstrip_chars]; [tauto|].
  destruct (Text.is_space x) eqn:S; [|tauto].
  rewrite IH. cbn [In]. split; [tauto|].
  intros [E|H]; [subst; congruence | assumption].
Qed.

Lemma strip_keeps (c : ascii) (l : list ascii) :
  Text.is_space c = false ->
  (In c (Text.strip_chars l) <-> In c l).
Proof.
  intros N. unfold Text.strip_chars.
  rewrite <- in_rev, lstrip_keeps, <- in_rev, lstrip_keeps by assumption.
  tauto.
Qed.

Lemma has_comma_strip (s : string) :
  Text.has_comma (Text.strip s) = Text.has_comma s.
Proof.
  apply eq_true_iff_eq. rewrite !has_comma_In. unfold Text.strip.
  rewrite list_ascii_of_string_of_list_ascii.
  now apply strip_keeps.
Qed.

Lemma remove_commas_without (s : string) :
  Text.has_comma s = false -> Text.remove_commas s = s.
Proof.
  induction s as [| c s IH]; cbn [Text.has_comma Text.remove_commas];
    [reflexivity|].
  intros H. apply orb_false_elim in H. destruct H as [H1 H2].
  rewrite H1. now rewrite IH.
Qed.

Lemma comma_is_no_digit (s : string) :
  Text.has_comma s = true -> Text.isdigit s = false.
Proof.
  intros H.
  assert (A : Text.all_digits s = false).
  { induction s as [| c s IH]; cbn [Text.has_comma Text.all_digits] in *;
      [discriminate|].
    apply orb_true_iff in H. destruct H as [H|H].
    - apply Ascii.eqb_eq in H. subst c. reflexivity.
    - rewrite (IH H). apply andb_false_r. }
  destruct s; [reflexivity | exact A].
Qed.

Lemma digit_value_bounds (c : ascii) :
  Text.is_digit c = true -> (0 <= Z.of_nat (nat_of_ascii c) - 48 <= 9)%Z.
Proof.
  unfold Text.is_digit. intros H. apply andb_true_iff in H.
  destruct H as [H1 H2]. apply Nat.leb_le in H1, H2. lia.
Qed.

Lemma digits_value_from_nonneg (s : string) :
  forall acc : Z,
    Text.all_digits s = true -> (0 <= acc)%Z ->
    (0 <= Text.digits_value_from acc s)%Z.
Proof.
  induction s as [| c s IH]; intros acc D A;
    cbn [Text.digits_value_from Text.all_digits] in *; [assumption|].
  apply andb_true_iff in D. destruct D as [D1 D2].
  apply IH; [assumption|].
  pose proof (digit_value_bounds c D1). lia.
Qed.

Lemma digits_value_nonneg (s : string) :
  Text.isdigit s = true -> (0 <= Text.digits_value s)%Z.
Proof.
  intros D. unfold Text.digits_value. apply digits_value_from_nonneg; [|lia].
  destruct s; [discriminate | exact D].
Qed.

(** What a column adds, without reference to [float] on other text than
    digits: a column counts when its header is not excluded and its
    value, trimmed, is made of digits. *)
Lemma column_pieces_closed (float_lit : string -> option spec_float)
  (h v : string) :
  column_pieces float_lit h v
  = if excluded_header (Text.lower h) then Ok 0%Z
    else if Text.isdigit (Text.strip v)
         then F64.to_int (F64.of_Z (Text.digits_value (Text.strip v)))
         else Ok 0%Z.
Proof.
  unfold column_pieces.
  destruct (excluded_header (Text.lower h)); [reflexivity|].
  destruct (Text.has_comma v) eqn:C.
  - rewrite (comma_is_no_digit (Text.strip v))
      by (now rewrite has_comma_strip).
    unfold int_of_float_text, py_float. rewrite C.
    destruct (Text.isdigit (Text.remove_commas (Text.strip v))); reflexivity.
  - rewrite remove_commas_without by (now rewrite has_comma_strip).
    destruct (Text.isdigit (Text.strip v)) eqn:D; [|reflexivity].
    unfold int_of_float_text, py_float. rewrite C, D. cbn [rbind].
    pose proof (@int_of_float_nonneg (Text.digits_value (Text.strip v))
                  (digits_value_nonneg _ D)) as S.
    destruct (F64.to_int (F64.of_Z (Text.digits_value (Text.strip v))))
      as [k|e]; [reflexivity|]. subst e. reflexivity.
Qed.

Lemma column_pieces_nonneg (float_lit : string -> option spec_float)
  (h v : string) (n : Z) :
  column_pieces float_lit h v = Ok n -> (0 <= n)%Z.
Proof.
  rewrite column_pieces_closed.
  destruct (excluded_header (Text.lower h)).
  - intros H. inversion H. lia.
  - destruct (Text.isdigit (Text.strip v)) eqn:D.
    + pose proof (@int_of_float_nonneg (Text.digits_value (Text.strip v))
                    (digits_value_nonneg _ D)) as S.
      intros H. rewrite H in S. exact S.
    + intros H. inversion H. lia.
Qed.

Lemma total_by_column_nonneg (float_lit : string -> option spec_float)
  (hs : list string) :
  forall (vs : list string) (total total' : Z),
    (0 <= total)%Z ->
    total_by_column float_lit hs vs total = Ok total' ->
    (0 <= total')%Z.
Proof.
  induction hs as [| h hs IH]; intros vs total total' T H;
    cbn [total_by_column] in H.
  - inversion H. lia.
  - destruct vs as [| v vs].
    + destruct (excluded_header (Text.lower h)); [|discriminate].
      now apply (IH [] total total').
    + destruct (column_pieces float_lit h v) as [n|e] eqn:C; [|discriminate].
      cbn [rbind] in H. apply column_pieces_nonneg in C.
      apply (IH vs (total + n)%Z total'); [lia | assumption].
Qed.

Lemma total_by_column_shift (float_lit : string -> option spec_float)
  (hs : list string) :
  forall (vs : list string) (total : Z),
    total_by_column float_lit hs vs total
    = (let? s := total_by_column float_lit hs vs 0 in Ok (total + s)%Z).
Proof.
  induction hs as [| h hs IH]; intros vs total; cbn [total_by_column].
  - cbn [rbind]. now rewrite Z.add_0_r.
  - destruct vs as [| v vs].
    + destruct (excluded_header (Text.lower h)); [apply IH | reflexivity].
    + destruct (column_pieces float_lit h v) as [n|e]; cbn [rbind];
        [|reflexivity].
      rewrite (IH vs (total + n)%Z), (IH vs (0 + n)%Z).
      destruct (total_by_column float_lit hs vs 0) as [s|e]; cbn [rbind];
        [|reflexivity].
      f_equal. lia.
Qed.

Lemma total_by_column_app (float_lit : string -> option spec_float)
  (h1 : list string) :
  forall (v1 h2 v2 : list string) (total : Z),
    List.length v1 = List.length h1 ->
    total_by_column float_lit (h1 ++ h2) (v1 ++ v2) total
    = (let? t := total_by_column float_lit h1 v1 total in
       total_by_column float_lit h2 v2 t).
Proof.
  induction h1 as [| h h1 IH]; intros [| v v1] h2 v2 total L;
    try discriminate.
  - reflexivity.
  - simpl in L. cbn [app total_by_column].
    destruct (column_pieces float_lit h v) as [n|e]; cbn [rbind];
      [|reflexivity].
    apply IH. lia.
Qed.

Lemma total_by_column_short (float_lit : string -> option spec_float)
  (hs : list string) :
  forall (vs : list string) (total : Z) (i : nat) (h : string),
    nth_error hs i = Some h ->
    excluded_header (Text.lower h) = false ->
    List.length vs <= i ->
    exists e, total_by_column float_lit hs vs total = Raise e.
Proof.
  induction hs as [| h' hs IH]; intros vs total i h N E L.
  - destruct i; discriminate.
  - cbn [total_by_column]. destruct vs as [| v vs].
    + destruct i as [| i].
      * simpl in N. inversion N; subst. rewrite E. eauto.
      * destruct (excluded_header (Text.lower h')); [|eauto].
        apply (IH [] total i h); auto. simpl. lia.
    + destruct i as [| i]; [simpl in L; lia|].
      destruct (column_pieces float_lit h' v) as [n|e]; cbn [rbind]; [|eauto].
      apply (IH vs _ i h); auto. simpl in L. lia.
Qed.

(** X9.  A header that counts (not specification, gizzard or total, in
    any letter case) and has no value under it, because the value row is
    shorter, makes the total unavailable: [calculate_total_pieces]
    returns [None], whatever the other columns hold. *)
Theorem total_pieces_unavailable_on_short_row
  (float_lit : string -> option spec_float)
  (headers values : list string) (rest : Table) (i : nat) (h : string) :
  nth_error headers i = Some h ->
  excluded_header (Text.lower h) = false ->
  List.length values <= i ->
  calculate_total_pieces float_lit (headers :: values :: rest) = None.
Proof.
  intros N E L. rewrite calculate_total_pieces_by_column.
  destruct (@total_by_column_short float_lit headers values 0%Z i h N E L)
    as [e R].
  now rewrite R.
Qed.

Lemma total_pieces_unavailable_on_short_row_witness :
  calculate_total_pieces (fun _ => None)
    [["Specification"; "Breast"; "Wing"]; ["Balance"; "10"]]
  = None.
Proof.
  apply (@total_pieces_unavailable_on_short_row (fun _ => None)
           ["Specification"; "Breast"; "Wing"] ["Balance"; "10"] [] 2 "Wing").
  - reflexivity.
  - reflexivity.
  - simpl. lia.
Defined.

(** X10.  The total of pieces adds up over the columns: for a sheet
    made of two blocks of columns side by side, the total is the sum of
    the totals of the blocks, and it is unavailable as soon as the total
    of one block is. *)
Theorem total_pieces_adds_over_columns
  (float_lit : string -> option spec_float)
  (h1 v1 h2 v2 : list string) (rest : Table) :
  List.length v1 = List.length h1 ->
  calculate_total_pieces float_lit ((h1 ++ h2) :: (v1 ++ v2) :: rest)
  = match calculate_total_pieces float_lit [h1; v1],
          calculate_total_pieces float_lit [h2; v2] with
    | Some a, Some b => Some (a + b)%Z
    | _, _ => None
    end.
Proof.
  intros L. rewrite !calculate_total_pieces_by_column.
  rewrite total_by_column_app by assumption.
  destruct (total_by_column float_lit h1 v1 0) as [a|e]; cbn [rbind];
    [|reflexivity].
  rewrite total_by_column_shift.
  destruct (total_by_column float_lit h2 v2 0) as [b|e]; reflexivity.
Qed.

Lemma total_pieces_adds_over_columns_witness :
  calculate_total_pieces (fun _ => None)
    [["Specification"; "Breast"; "Wing"; "Gizzard"]; ["Balance"; "10"; "6"; "3"]]
  = Some (10 + 6)%Z.
Proof.
  apply (@total_pieces_adds_over_columns (fun _ => None)
           ["Specification"; "Breast"] ["Balance"; "10"]
           ["Wing"; "Gizzard"] ["6"; "3"] []).
  reflexivity.
Defined.

(** X11.  The total of pieces is never negative. *)
Theorem total_pieces_not_negative
  (float_lit : string -> option spec_float) (stock_data : Table) (total : Z) :
  calculate_total_pieces float_lit stock_data = Some total ->
  (0 <= total)%Z.
Proof.
  destruct stock_data as [| headers [| values rest]]; try discriminate.
  rewrite calculate_total_pieces_by_column.
  destruct (total_by_column float_lit headers values 0) as [t|e] eqn:T;
    [|discriminate].
  intros H. inversion H; subst.
  apply (@total_by_column_nonneg float_lit headers values 0%Z total);
    [lia | exact T].
Qed.

Lemma total_pieces_not_negative_witness :
  calculate_total_pieces (fun _ => None) stock_sheet = Some 16%Z
  /\ (0 <= 16)%Z.
Proof.
  split; [reflexivity|].
  apply (@total_pieces_not_negative (fun _ => None) stock_sheet 16%Z).
  reflexivity.
Defined.


(** ** More on the ledger *)

Lemma find_first_app {A} (p : A -> bool) (before after : list A) (x : A) :
  (forall y, In y before -> p y = false) ->
  p x = true ->
  find_first p (before ++ x :: after) = Some x.
Proof.
  intros B X. induction before as [| y before IH]; cbn [app find_first].
  - now rewrite X.
  - rewrite (B y) by now left. apply IH. intros z Z. apply B. now right.
Qed.

Lemma list_index_from_missing (x : string) (l : list string) :
  forall i : nat, ~ In x l -> list_index_from x l i = Raise ValueError.
Proof.
  induction l as [| y l IH]; intros i N; cbn [list_index_from]; [reflexivity|].
  destruct (String.eqb y x) eqn:E.
  - apply String.eqb_eq in E. exfalso. apply N. now left.
  - apply IH. intros H. apply N. now right.
Qed.

Lemma ledger_current_month (float_lit : string -> option spec_float)
  (balance_column : string) (headers : list string)
  (before after : Table) (row : list string) (now : string) (bal ym : nat) :
  list_index balance_column headers = Ok bal ->
  list_index "year_month" headers = Ok ym ->
  (forall r, In r before -> is_current_month ym now r = false) ->
  is_current_month ym now row = true ->
  ledger_balance float_lit balance_column
    (Some (headers :: before ++ row :: after)) now
  = balance_of_row float_lit bal row.
Proof.
  intros Hbal Hym Hb Hrow. unfold ledger_balance.
  replace (List.length (headers :: before ++ row :: after) <? 2)%nat with false
    by (symmetry; apply Nat.ltb_ge; simpl; rewrite length_app; simpl; lia).
  cbn [Py.list_getitem nth_error rbind].
  rewrite Hbal, Hym. cbn [rbind skipn].
  unfold select_row. rewrite (find_first_app _ before after row Hb Hrow).
  reflexivity.
Qed.

Lemma ledger_missing_column (float_lit : string -> option spec_float)
  (balance_column : string) (headers : list string) (rows : Table)
  (now : string) :
  ~ In balance_column headers \/ ~ In "year_month" headers ->
  ledger_balance float_lit balance_column (Some (headers :: rows)) now = None.
Proof.
  intros H. unfold ledger_balance.
  destruct (List.length (headers :: rows) <? 2)%nat; [reflexivity|].
  cbn [Py.list_getitem nth_error rbind]. unfold list_index.
  destruct H as [H|H].
  - now rewrite (list_index_from_missing _ _ 0 H).
  - rewrite (list_index_from_missing _ _ 0 H).
    destruct (list_index_from balance_column headers 0); reflexivity.
Qed.

(** X13.  Period selection with an exact match: the first data row
    whose [year_month] cell is the current month is the row both
    balances are read from, whatever the rows after it hold, later
    months included. *)
Theorem current_month_row_is_used
  (float_lit : string -> option spec_float)
  (headers : list string) (before after : Table) (row : list string)
  (now : string) (chicken gizzard ym : nat) :
  list_index "whole_chicken_quantity_stock_balance" headers = Ok chicken ->
  list_index "gizzard_weight_stock_balance" headers = Ok gizzard ->
  list_index "year_month" headers = Ok ym ->
  (forall r, In r before -> is_current_month ym now r = false) ->
  is_current_month ym now row = true ->
  get_inventory_balance float_lit
    (Some (headers :: before ++ row :: after)) now
  = balance_of_row float_lit chicken row
  /\ get_gizzard_inventory_balance float_lit
       (Some (headers :: before ++ row :: after)) now
     = balance_of_row float_lit gizzard row.
Proof.
  intros C G Y B R. split.
  - now apply ledger_current_month with (ym := ym).
  - now apply ledger_current_month with (ym := ym).
Qed.

Lemma current_month_row_is_used_witness :
  get_inventory_balance (fun _ => None)
    (Some (hd [] ledger :: [["2025-01"; "20"; "4"]] ++ ["2025-02"; "16"; "3"]
             :: [["2025-03"; "11"; "2"]; ["2025-02"; "7"; "1"]]))
    "2025-02"
  = Some (F64.of_Z 16)
  /\ get_gizzard_inventory_balance (fun _ => None)
       (Some (hd [] ledger :: [["2025-01"; "20"; "4"]] ++ ["2025-02"; "16"; "3"]
                :: [["2025-03"; "11"; "2"]; ["2025-02"; "7"; "1"]]))
       "2025-02"
     = Some (F64.of_Z 3).
Proof.
  apply (@current_month_row_is_used (fun _ => None) (hd [] ledger)
           [["2025-01"; "20"; "4"]]
           [["2025-03"; "11"; "2"]; ["2025-02"; "7"; "1"]]
           ["2025-02"; "16"; "3"] "2025-02" 1 2 0).
  - reflexivity.
  - reflexivity.
  - reflexivity.
  - intros r [H|[]]; subst; reflexivity.
  - reflexivity.
Defined.

(** X14.  A ledger whose header row lacks the balance column or the
    [year_month] column gives no balance, whatever its data rows hold:
    the [ValueError] of [headers.index] is answered with [None]. *)
Theorem missing_column_gives_no_balance
  (float_lit : string -> option spec_float)
  (headers : list string) (rows : Table) (now : string) :
  (~ In "whole_chicken_quantity_stock_balance" headers
   \/ ~ In "year_month" headers ->
   get_inventory_balance float_lit (Some (headers :: rows)) now = None)
  /\ (~ In "gizzard_weight_stock_balance" headers
      \/ ~ In "year_month" headers ->
      get_gizzard_inventory_balance float_lit (Some (headers :: rows)) now
      = None).
Proof.
  split; intros H; now apply ledger_missing_column.
Qed.

Lemma missing_column_gives_no_balance_witness :
  get_gizzard_inventory_balance (fun _ => None)
    (Some [["year_month"; "whole_chicken_quantity_stock_balance"];
           ["2025-02"; "16"]])
    "2025-02"
  = None.
Proof.
  apply (proj2 (@missing_column_gives_no_balance (fun _ => None)
                  ["year_month"; "whole_chicken_quantity_stock_balance"]
                  [["2025-02"; "16"]] "2025-02")).
  left. intros [H|[H|[]]]; discriminate.
Defined.

(** ** More on the differences *)

Lemma find_index_from_app {A} (p : A -> bool) (before after : list A) (x : A) :
  forall i : nat,
    (forall y, In y before -> p y = false) ->
    p x = true ->
    find_index_from p (before ++ x :: after) i = Some (i + List.length before).
Proof.
  induction before as [| y before IH]; intros i B X;
    cbn [app find_index_from List.length].
  - rewrite X. f_equal. lia.
  - rewrite (B y) by now left.
    rewrite IH; [f_equal; lia | | assumption].
    intros z Z. apply B. now right.
Qed.

Lemma list_getitem_beyond {A} (l : list A) (i : nat) :
  List.length l <= i -> Py.list_getitem l i = Raise IndexError.
Proof.
  intros L. unfold Py.list_getitem.
  now rewrite (proj2 (nth_error_None l i) L).
Qed.

(** X15.  A gizzard header with no value under it costs both
    differences: when the first header that reads gizzard (in any
    letter case) lies beyond the end of the value row, the [IndexError]
    of [values[i]] escapes the inner [try], and
    [calculate_current_differences] returns [(None, None)] even when the
    whole-chicken difference could be computed. *)
Theorem gizzard_without_value_loses_both_differences
  (float_lit : string -> option spec_float)
  (before after values : list string) (h : string) (rest : Table)
  (inventory_balance gizzard_inventory_balance : option spec_float) :
  (forall x, In x before -> String.eqb (Text.lower x) "gizzard" = false) ->
  Text.lower h = "gizzard" ->
  List.length values <= List.length before ->
  calculate_current_differences float_lit
    ((before ++ h :: after) :: values :: rest)
    inventory_balance gizzard_inventory_balance
  = (ANone, ANone).
Proof.
  intros B H L. unfold calculate_current_differences.
  cbn [Py.list_getitem nth_error].
  assert (W : current_gizzard_weight float_lit (before ++ h :: after) values
              = Raise IndexError).
  { unfold current_gizzard_weight.
    rewrite (find_index_from_app _ before after h 0 B)
      by (rewrite H; reflexivity).
    rewrite list_getitem_beyond by (simpl; lia). reflexivity. }
  destruct (match calculate_total_pieces float_lit
                    ((before ++ h :: after) :: values :: rest),
                  inventory_balance with
            | Some t, Some b => let? d := int_difference t b in Ok (AInt d)
            | _, _ => Ok ANone
            end) as [d|e]; cbn [rbind except_all]; [|reflexivity].
  rewrite W. reflexivity.
Qed.

Lemma gizzard_without_value_loses_both_differences_witness :
  calculate_total_pieces (fun _ => None)
    [["Specification"; "Breast"; "Gizzard"]; ["Balance"; "10"]] = Some 10%Z
  /\ calculate_current_differences (fun _ => None)
       [["Specification"; "Breast"; "Gizzard"]; ["Balance"; "10"]]
       (Some (F64.of_Z 8)) (Some (F64.of_Z 3))
     = (ANone, ANone).
Proof.
  split; [reflexivity|].
  apply (@gizzard_without_value_loses_both_differences (fun _ => None)
           ["Specification"; "Breast"] [] ["Balance"; "10"] "Gizzard" []
           (Some (F64.of_Z 8)) (Some (F64.of_Z 3))).
  - intros x [E|[E|[]]]; subst; reflexivity.
  - reflexivity.
  - simpl. lia.
Defined.


(** ** Alert formatting *)

Lemma py_float_raises (float_lit : string -> option spec_float)
  (s : string) (e : exn) :
  py_float float_lit s = Raise e -> e = ValueError.
Proof.
  unfold py_float.
  destruct (Text.has_comma s); [intros H; now inversion H|].
  destruct (Text.isdigit (Text.strip s)); [discriminate|].
  destruct (float_lit s); [discriminate|].
  intros H. now inversion H.
Qed.

Lemma guarded_float_raises (float_lit : string -> option spec_float)
  (clean : string -> string) (v : PyVal) (e : exn) :
  guarded_float float_lit clean v = Raise e -> e = ValueError.
Proof.
  unfold guarded_float.
  destruct v as [[| | |s]|]; try discriminate.
  destruct (Text.isdigit (clean (Text.strip s))); [|discriminate].
  destruct (py_float float_lit s) as [f|e'] eqn:P; [discriminate|].
  cbn [rbind]. intros H. inversion H; subst.
  exact (py_float_raises float_lit s P).
Qed.

Lemma format_change_line_ok (float_lit : string -> option spec_float)
  (clean : string -> string) (c : Change) :
  format_change_line float_lit clean c = Ok tt.
Proof.
  destruct c as [[label old_val] new_val]. unfold format_change_line.
  destruct (guarded_float float_lit clean old_val) as [[]|e] eqn:O.
  - destruct (guarded_float float_lit clean new_val) as [[]|e] eqn:N.
    + reflexivity.
    + apply guarded_float_raises in N. subst e. reflexivity.
  - apply guarded_float_raises in O. subst e. reflexivity.
Qed.

Lemma for_each_ok {A} (f : A -> result unit) (l : list A) :
  (forall x, f x = Ok tt) -> for_each f l = Ok tt.
Proof.
  intros F. induction l as [| x l IH]; cbn [for_each]; [reflexivity|].
  now rewrite F.
Qed.


(** A round that raises whatever the accumulator makes the loop raise. *)
Lemma for_range_from_raises {A} (body : nat -> A -> result A) (n : nat) :
  forall (start i : nat) (acc : A),
    start <= i < start + n ->
    (forall a, exists e, body i a = Raise e) ->
    exists e, for_range_from start n body acc = Raise e.
Proof.
  induction n as [| n IH]; intros start i acc R B; [lia|].
  cbn [for_range_from].
  destruct (body start acc) as [acc'|e] eqn:St; cbn [rbind]; [|eauto].
  destruct (Nat.eq_dec i start) as [E|E].
  - subst i. destruct (B acc) as [e B']. congruence.
  - apply (IH (Datatypes.S start) i acc'); [lia | assumption].
Qed.


Lemma stock_levels_loop_short (float_lit : string -> option spec_float)
  (headers values : list string) (i : nat) (h : string) :
  nth_error headers i = Some h ->
  String.eqb (Text.lower h) "specification" = false ->
  List.length values <= i ->
  exists e, stock_levels_loop float_lit headers values = Raise e.
Proof.
  intros N S L. unfold stock_levels_loop, for_range.
  apply for_range_from_raises with (i := i).
  - split; [lia|]. simpl. apply nth_error_Some. congruence.
  - intros a. exists IndexError. unfold Py.list_getitem at 1. rewrite N.
    cbn [rbind]. rewrite S. cbn [negb].
    rewrite list_getitem_beyond by assumption. reflexivity.
Qed.

(** X17.  A stock sheet whose value row is shorter than its header row
    cannot be reported: when a header other than specification (in any
    letter case) has no value under it, [format_stock_section] raises,
    and so does [send_combined_alert] as soon as there is a change to
    report, before any request is made. *)
Theorem short_value_row_breaks_alert
  (float_lit : string -> option spec_float)
  (headers values : list string) (rest : Table) (i : nat) (h : string)
  (post : bool) (stock_changes parts_changes : list Change)
  (parts_data : Table) (ib gb : option spec_float)
  (chicken_changes gizzard_changes : list Change) :
  nth_error headers i = Some h ->
  String.eqb (Text.lower h) "specification" = false ->
  List.length values <= i ->
  (exists e, format_stock_section float_lit stock_changes
               (headers :: values :: rest) ib gb = Raise e)
  /\ (no_changes stock_changes && no_changes parts_changes
      && no_changes chicken_changes && no_changes gizzard_changes = false ->
      exists e, send_combined_alert float_lit post
                  stock_changes (headers :: values :: rest)
                  parts_changes parts_data ib gb
                  chicken_changes gizzard_changes = Raise e).
Proof.
  intros N S L.
  assert (F : exists e, format_stock_section float_lit stock_changes
                          (headers :: values :: rest) ib gb = Raise e).
  { unfold format_stock_section.
    rewrite for_each_ok.
    - cbn [rbind Py.list_getitem nth_error].
      destruct (stock_levels_loop_short float_lit headers values N S L)
        as [e E].
      rewrite E. cbn [rbind]. eauto.
    - intros [[spec old_val] new_val].
      destruct (String.eqb (Text.lower spec) "gizzard");
        apply format_change_line_ok. }
  split; [exact F|].
  intros C. unfold send_combined_alert. rewrite C.
  destruct F as [e F]. rewrite F. cbn [rbind]. eauto.
Qed.

Lemma short_value_row_breaks_alert_witness :
  exists e,
    send_combined_alert (fun _ => None) true
      [("Breast", cell "9", cell "10")]
      [["Specification"; "Breast"; "Wing"]; ["Balance"; "10"]]
      [] parts_sheet None None [] []
    = Raise e.
Proof.
  apply (proj2 (@short_value_row_breaks_alert (fun _ => None)
                  ["Specification"; "Breast"; "Wing"] ["Balance"; "10"] []
                  2 "Wing" true [("Breast", cell "9", cell "10")] []
                  parts_sheet None None [] []
                  eq_refl eq_refl (le_n 2))).
  reflexivity.
Defined.

(** ** More on the run *)




Lemma save_all_states_writes (stock_data parts_data : Table) (c g : Atom)
  (st : Store) :
  2 <= List.length stock_data ->
  2 <= List.length parts_data ->
  number_or_none c = true ->
  number_or_none g = true ->
  (forall f, writable st f = true) ->
  save_all_states stock_data parts_data c g st
  = (Ok tt,
     write_file GIZZARD_DIFF_STATE_FILE (PAtom g)
       (write_file WHOLE_CHICKEN_DIFF_STATE_FILE (PAtom c)
          (write_file PARTS_STATE_FILE (table_val parts_data)
             (write_file STOCK_STATE_FILE (table_val stock_data) st)))).
Proof.
  intros Hs Hp Hc Hg W. unfold save_all_states, bind.
  rewrite save_table_step by (auto; reflexivity).
  rewrite W.
  rewrite save_table_step by (auto; reflexivity).
  rewrite writable_after_write, W.
  rewrite save_scalar_step by (auto; reflexivity).
  rewrite !writable_after_write, W.
  rewrite save_scalar_step by (auto; reflexivity).
  rewrite !writable_after_write, W.
  reflexivity.
Qed.


(** X18.  A run that cannot be set up touches no state file: without a
    webhook address, without the sheet service, or when the stock or
    the parts sheet cannot be fetched (the request fails or delivers
    fewer than two rows), [main] leaves the store as it found it. *)
Theorem failed_setup_leaves_state_untouched
  (float_lit : string -> option spec_float) (env : Env) (st : Store) :
  webhook_url env = None \/ webhook_url env = Some ""
  \/ service_ok env = false
  \/ (exists e, get_sheet_data (stock_response env) = Raise e)
  \/ (exists e, get_sheet_data (parts_response env) = Raise e) ->
  main float_lit env st = st.
Proof.
  intros H. unfold main, try_except, main_body, bind, lift, ret.
  destruct (webhook_url env) as [url|] eqn:U; [|reflexivity].
  destruct (String.eqb url "") eqn:N; [reflexivity|].
  destruct (service_ok env) eqn:S; [|reflexivity].
  destruct (get_sheet_data (stock_response env)) as [sd|e1] eqn:Hs;
    [|reflexivity].
  destruct (get_sheet_data (parts_response env)) as [pd|e2] eqn:Hp;
    [|reflexivity].
  exfalso.
  destruct H as [H|[H|[H|[[e H]|[e H]]]]]; try discriminate.
  inversion H; subst. discriminate.
Qed.

Lemma failed_setup_leaves_state_untouched_witness :
  main (fun _ => None)
    (mkEnv (Some "https://chat.example/hook") true
       (Some [["Specification"; "Breast"]]) (Some parts_sheet)
       (Some ledger) (Some ledger) "2025-02" true)
    earlier_state
  = earlier_state.
Proof.
  apply (@failed_setup_leaves_state_untouched (fun _ => None)
           (mkEnv (Some "https://chat.example/hook") true
              (Some [["Specification"; "Breast"]]) (Some parts_sheet)
              (Some ledger) (Some ledger) "2025-02" true)
           earlier_state).
  right. right. right. left.
  exists (APIError "Unexpected error while fetching data"). reflexivity.
Defined.

Lemma main_body_without_baseline (float_lit : string -> option spec_float)
  (env : Env) (st : Store) (stock_data parts_data : Table) :
  fetches_succeed env stock_data parts_data ->
  (forall f, load_previous_state f st = PNone) ->
  main_body float_lit env st
  = save_all_states stock_data parts_data
      (fst (current_differences float_lit env stock_data))
      (snd (current_differences float_lit env stock_data)) st.
Proof.
  intros ((url & U & N) & S & Hs & Hp) L.
  unfold main_body, bind, lift, ret, load.
  rewrite U. apply String.eqb_neq in N. rewrite N, S, Hs, Hp, !L.
  fold (current_differences float_lit env stock_data).
  destruct (current_differences float_lit env stock_data) as [c g].
  reflexivity.
Qed.

(** X19.  The first run records the baseline and reports nothing: when
    the fetches succeed, no state file holds a usable previous state
    and the files can be written, the run ends without an exception,
    whatever the shape of the sheets' rows, and leaves the four state
    files with the current values. *)
Theorem first_run_records_baseline
  (float_lit : string -> option spec_float)
  (env : Env) (st : Store) (stock_data parts_data : Table) :
  fetches_succeed env stock_data parts_data ->
  (forall f, load_previous_state f st = PNone) ->
  (forall f, writable st f = true) ->
  main_body float_lit env st = (Ok tt, main float_lit env st)
  /\ holds_current (main float_lit env st) stock_data parts_data
       (fst (current_differences float_lit env stock_data))
       (snd (current_differences float_lit env stock_data)).
Proof.
  intros F L W.
  pose proof F as (_ & _ & Hs & Hp).
  destruct (get_sheet_data_rows _ Hs) as [_ Ls].
  destruct (get_sheet_data_rows _ Hp) as [_ Lp].
  destruct (current_differences_shape float_lit stock_data
              (get_inventory_balance float_lit (inventory_response env)
                 (current_year_month env))
              (get_gizzard_inventory_balance float_lit (gizzard_response env)
                 (current_year_month env)))
    as [Sc Sg].
  fold (current_differences float_lit env stock_data) in Sc, Sg.
  pose proof (main_body_without_baseline float_lit st F L) as B.
  rewrite (save_all_states_writes _ _ _ _ st Ls Lp Sc Sg W) in B.
  rewrite (main_of_completed_body _ _ _ B).
  split; [exact B|]. repeat split.
Qed.

Lemma first_run_records_baseline_witness :
  main_body (fun _ => None) short_row_env empty_store
  = (Ok tt, main (fun _ => None) short_row_env empty_store)
  /\ holds_current (main (fun _ => None) short_row_env empty_store)
       [["Specification"; "Breast"; "Wing"]; ["Balance"; "10"]] parts_sheet
       (fst (current_differences (fun _ => None) short_row_env
               [["Specification"; "Breast"; "Wing"]; ["Balance"; "10"]]))
       (snd (current_differences (fun _ => None) short_row_env
               [["Specification"; "Breast"; "Wing"]; ["Balance"; "10"]])).
Proof.
  apply (@first_run_records_baseline (fun _ => None) short_row_env empty_store
           [["Specification"; "Breast"; "Wing"]; ["Balance"; "10"]]
           parts_sheet).
  - repeat split.
    exists "https://chat.example/hook". split; [reflexivity | discriminate].
  - intros f. destruct f; reflexivity.
  - intros f. reflexivity.
Defined.

(** *** A run over its own result *)












(** *** What a run can leave in the state files *)



Section Integrity.

Variable float_lit : string -> option spec_float.
Variable env : Env.
Variables stock_data parts_data : Table.













End Integrity.


